(** * House price predictor: the loader, the feature derivation and the page flow

    A shallow embedding of [new.py], the single Streamlit script of the
    repository: the artifact loader [load_model_and_scaler], the feature
    derivation and prediction of [predict_house_price], and the top-level
    flow of the page (load, gate on [model_loaded], read the widgets, predict
    on a click).

    Numbers are modelled as the script holds them.  A column of Python ints
    is an [int64] column of the frame: a [Z] in the int64 range, with the
    wrap-around of numpy's arithmetic written out.  A float is a binary64
    value: Rocq's primitive [float], whose operations are the IEEE-754 ones
    numpy and Python use. *)

From Stdlib Require Import ZArith List String Bool Lia.
From Stdlib Require Import Floats.
Import ListNotations.

(* Decimal float literals stand for the nearest binary64 value, as in
   Python. *)
Set Warnings "-inexact-float".

Open Scope Z_scope.
Open Scope string_scope.

(** ** Exceptions and results *)

(** The Python exceptions that the modelled code can raise or let through.
    [StopException] is the control exception [st.stop()] raises to end the
    run of the script. *)
Inductive exn : Type :=
| FileNotFoundError
| PermissionError
| UnpicklingError
| AttributeError
| KeyError (key : string)
| ValueError
| IndexError
| StopException.

Inductive result (A : Type) : Type :=
| Ok (a : A)
| Raise (e : exn).
Arguments Ok {A} a.
Arguments Raise {A} e.

Definition rbind {A B : Type} (r : result A) (k : A -> result B) : result B :=
  match r with
  | Ok a => k a
  | Raise e => Raise e
  end.

Declare Scope result_scope.
Delimit Scope result_scope with result.
Notation "'let?' x ':=' r 'in' k" := (rbind r (fun x => k))
  (at level 10, x name, r at level 100, k at level 200) : result_scope.

(** ** Machine numbers *)

Definition min_int64 : Z := - 2 ^ 63.
Definition max_int64 : Z := 2 ^ 63 - 1.

Definition in_int64 (z : Z) : Prop := min_int64 <= z <= max_int64.

(** numpy's int64 arithmetic keeps the low 64 bits, read as a signed number. *)
Definition wrap64 (z : Z) : Z := (z + 2 ^ 63) mod 2 ^ 64 - 2 ^ 63.

(** The conversion of an integer to binary64, rounding to nearest-even. *)
Definition float_of_Z (z : Z) : float :=
  SF2Prim (binary_normalize prec emax z 0 false).
Arguments float_of_Z : simpl never.
Arguments wrap64 : simpl never.

(** [int(b)] for a Python bool. *)
Definition int_of_bool (b : bool) : Z := if b then 1 else 0.

(** ** Series and frames (the part of pandas the script uses) *)

(** A column has one dtype.  The script only builds int64 and float64
    columns. *)
Inductive Series : Type :=
| Int64 (xs : list Z)
| Float64 (xs : list float).

Definition series_len (s : Series) : nat :=
  match s with
  | Int64 xs => List.length xs
  | Float64 xs => List.length xs
  end.

(** The values of a column as float64 (numpy's cast of an int64 operand when
    the result of an operation is float64). *)
Definition as_float64 (s : Series) : list float :=
  match s with
  | Int64 xs => map float_of_Z xs
  | Float64 xs => xs
  end.

(** Element-wise combination of two columns of one frame (they share the
    frame's index, so they have the same length). *)
Definition map2 {A B C : Type} (f : A -> B -> C) (xs : list A) (ys : list B)
  : list C :=
  map (fun p => f (fst p) (snd p)) (combine xs ys).

(** [a + b] on columns: int64 + int64 stays int64 and wraps; a float64
    operand makes the result float64. *)
Definition series_add (a b : Series) : Series :=
  match a, b with
  | Int64 xs, Int64 ys => Int64 (map2 (fun x y => wrap64 (x + y)) xs ys)
  | _, _ => Float64 (map2 PrimFloat.add (as_float64 a) (as_float64 b))
  end.

(** [a * b] on columns, with the same promotion. *)
Definition series_mul (a b : Series) : Series :=
  match a, b with
  | Int64 xs, Int64 ys => Int64 (map2 (fun x y => wrap64 (x * y)) xs ys)
  | _, _ => Float64 (map2 PrimFloat.mul (as_float64 a) (as_float64 b))
  end.

(** [a / b] on columns is true division: always float64, both operands
    cast to float64 first. *)
Definition series_truediv (a b : Series) : Series :=
  Float64 (map2 PrimFloat.div (as_float64 a) (as_float64 b)).

(** [a + k] for a Python int [k]. *)
Definition series_add_int (a : Series) (k : Z) : Series :=
  match a with
  | Int64 xs => Int64 (map (fun x => wrap64 (x + k)) xs)
  | Float64 xs => Float64 (map (fun x => PrimFloat.add x (float_of_Z k)) xs)
  end.

(** [a / k] for a Python int [k]. *)
Definition series_truediv_int (a : Series) (k : Z) : Series :=
  Float64 (map (fun x => PrimFloat.div x (float_of_Z k)) (as_float64 a)).

(** A frame is its columns in order: the order is what [scaler.transform]
    receives. *)
Definition DataFrame : Type := list (string * Series).

Definition columns (df : DataFrame) : list string := map fst df.

Definition nrows (df : DataFrame) : nat :=
  match df with
  | [] => O
  | (_, s) :: _ => series_len s
  end.

(** [pd.DataFrame({...})] from a dict of lists: the columns in the dict's
    order; lists of different lengths are refused. *)
Definition new_DataFrame (d : list (string * Series)) : result DataFrame :=
  match d with
  | [] => Ok []
  | (_, s) :: rest =>
      if forallb (fun c => Nat.eqb (series_len (snd c)) (series_len s)) rest
      then Ok d
      else Raise ValueError
  end.

(** [df[name]]. *)
Fixpoint getitem (df : DataFrame) (name : string) : result Series :=
  match df with
  | [] => Raise (KeyError name)
  | (c, s) :: rest => if String.eqb c name then Ok s else getitem rest name
  end.

(** The columns after [df[name] = s]: an existing column is replaced where
    it stands, a new one goes last. *)
Fixpoint assign (df : DataFrame) (name : string) (s : Series) : DataFrame :=
  match df with
  | [] => [(name, s)]
  | (c, s0) :: rest =>
      if String.eqb c name then (c, s) :: rest
      else (c, s0) :: assign rest name s
  end.

(** [df[name] = s].  The columns stored here are computed from columns of
    the same frame, so they have its length; a value of another length does
    not fit the frame's index and is refused. *)
Definition setitem (df : DataFrame) (name : string) (s : Series)
  : result DataFrame :=
  if Nat.eqb (series_len s) (nrows df) then Ok (assign df name s)
  else Raise ValueError.

(** ** The feature row

    Lines 122-140 of [predict_house_price]: the one-row frame of the twelve
    raw inputs in the order of the dict literal, then the four derived
    columns, each read back from the frame and stored under its name. *)

Open Scope result_scope.

Definition input_data
    (bedrooms grade : Z) (has_basement : bool) (living_in_m2 : float)
    (renovated nice_view perfect_condition : bool) (real_bathrooms : Z)
    (has_lavatory single_floor : bool) (month quartile_zone : Z)
  : result DataFrame :=
  let? df := new_DataFrame
    [ ("bedrooms", Int64 [bedrooms]);
      ("grade", Int64 [grade]);
      ("has_basement", Int64 [int_of_bool has_basement]);
      ("living_in_m2", Float64 [living_in_m2]);
      ("renovated", Int64 [int_of_bool renovated]);
      ("nice_view", Int64 [int_of_bool nice_view]);
      ("perfect_condition", Int64 [int_of_bool perfect_condition]);
      ("real_bathrooms", Int64 [real_bathrooms]);
      ("has_lavatory", Int64 [int_of_bool has_lavatory]);
      ("single_floor", Int64 [int_of_bool single_floor]);
      ("month", Int64 [month]);
      ("quartile_zone", Int64 [quartile_zone]) ] in
  (* input_data['bathroom_bedroom_ratio'] = ... *)
  let? rb := getitem df "real_bathrooms" in
  let? b := getitem df "bedrooms" in
  let? df := setitem df "bathroom_bedroom_ratio"
               (series_truediv rb (series_add_int b 1)) in
  (* input_data['total_rooms'] = ... *)
  let? b := getitem df "bedrooms" in
  let? rb := getitem df "real_bathrooms" in
  let? df := setitem df "total_rooms" (series_add b rb) in
  (* input_data['luxury_score'] = ... *)
  let? g := getitem df "grade" in
  let? l := getitem df "living_in_m2" in
  let? df := setitem df "luxury_score"
               (series_truediv_int (series_mul g l) 100) in
  (* input_data['quality_index'] = ... *)
  let? g := getitem df "grade" in
  let? pc := getitem df "perfect_condition" in
  setitem df "quality_index" (series_mul g (series_add_int pc 1)).

(** The column order the scaler and the model were fitted on. *)
Definition feature_columns : list string :=
  [ "bedrooms"; "grade"; "has_basement"; "living_in_m2"; "renovated";
    "nice_view"; "perfect_condition"; "real_bathrooms"; "has_lavatory";
    "single_floor"; "month"; "quartile_zone";
    "bathroom_bedroom_ratio"; "total_rooms"; "luxury_score";
    "quality_index" ].

(** ** The running page: its state and its effects *)

(** What [scaler.transform] returns: a two-dimensional float64 array, one
    row per row of the frame. *)
Definition ndarray : Type := list (list float).

Module Page.

(** What the script draws, without layout and styling. *)
Inductive element : Type :=
| PageConfig
| Markdown (body : string)
| Header (body : string)
| Subheader (body : string)
| ErrorBox (body : string)
| SuccessBox (body : string)
| InfoBox (body : string)
| Widget (label : string)
| PriceCard (price : float).

(** What the user has set in the sidebar, and whether the button was
    clicked, for one run of the script. *)
Record Widgets : Type := {
  ui_bedrooms : Z;
  ui_real_bathrooms : Z;
  ui_living_in_m2 : float;
  ui_grade : Z;
  ui_quartile_zone : Z;
  ui_has_basement : bool;
  ui_renovated : bool;
  ui_nice_view : bool;
  ui_perfect_condition : bool;
  ui_has_lavatory : bool;
  ui_single_floor : bool;
  ui_month : Z;
  ui_predict : bool
}.

End Page.
Export Page.

Section Artifacts.

(** The two pickled artifacts are not part of the repository.  They are
    taken as parameters: a type of (states of) unpickled objects and the two
    methods the script calls on them.  A Python method may change its
    receiver and its argument in place, so a call gives back the receiver
    (and, for [transform], the frame) as the call left it, together with
    what the call returned or raised. *)
Variable Obj : Type.
Variable transform : Obj -> DataFrame -> Obj * DataFrame * result ndarray.
Variable predict : Obj -> ndarray -> Obj * result (list float).

(** A file of the working directory, as [open] and [pickle.load] see it. *)
Inductive file : Type :=
| Absent                (* no such file *)
| NoPermission          (* present, but may not be opened *)
| Garbage               (* opens, but is not a pickle *)
| Pickle (o : Obj).     (* a pickled object *)

(** One step of the run of the page, in order. *)
Inductive event : Type :=
| Render (e : element)
| Call_predict_house_price (model scaler : option Obj).

(** The state the script runs in: the files, the three module globals set
    at line 113 ([None] is Python's [None]), and what has happened so far. *)
Record World : Type := {
  files : string -> file;
  model : option Obj;
  scaler : option Obj;
  model_loaded : bool;
  trace : list event
}.

(** A computation of the script: it may change the state, and returns or
    raises. *)
Definition Py (A : Type) : Type := World -> World * result A.

Definition ret {A : Type} (a : A) : Py A := fun w => (w, Ok a).

Definition raise {A : Type} (e : exn) : Py A := fun w => (w, Raise e).

Definition bind {A B : Type} (c : Py A) (k : A -> Py B) : Py B :=
  fun w =>
    match c w with
    | (w', Ok a) => k a w'
    | (w', Raise e) => (w', Raise e)
    end.

Definition lift {A : Type} (r : result A) : Py A := fun w => (w, r).

Notation "x <- c ;; k" := (bind c (fun x => k))
  (at level 61, c at next level, right associativity).
Notation "c ;; k" := (bind c (fun _ => k))
  (at level 61, right associativity).

(** [st.<something>(...)] that draws: the element is added to the page. *)
Definition render (e : element) : Py unit :=
  fun w =>
    ({| files := files w; model := model w; scaler := scaler w;
        model_loaded := model_loaded w;
        trace := trace w ++ [Render e] |}, Ok tt).

(** [st.stop()]: the run ends here. *)
Definition st_stop {A : Type} : Py A := raise StopException.

(** *** The loader (lines 102-111) *)

(** [open(path, 'rb')]. *)
Definition open_rb (path : string) : Py file :=
  fun w =>
    match files w path with
    | Absent => (w, Raise FileNotFoundError)
    | NoPermission => (w, Raise PermissionError)
    | f => (w, Ok f)
    end.

(** [pickle.load(f)] on an open file. *)
Definition pickle_load (f : file) : Py Obj :=
  match f with
  | Pickle o => ret o
  | _ => raise UnpicklingError
  end.

(** [try: body except FileNotFoundError: handler]: only that exception is
    caught, any other goes on to the caller. *)
Definition try_except_FileNotFoundError {A : Type} (body handler : Py A)
  : Py A :=
  fun w =>
    match body w with
    | (w', Raise FileNotFoundError) => handler w'
    | r => r
    end.

(** The body of [load_model_and_scaler].  The script calls it through
    [st.cache_resource], which keeps the returned triple for later runs of
    the page; one run is modelled here, so the body runs. *)
Definition load_model_and_scaler : Py (option Obj * option Obj * bool) :=
  try_except_FileNotFoundError
    (f <- open_rb "house_price_model.pkl" ;;
     model <- pickle_load f ;;
     f <- open_rb "scaler.pkl" ;;
     scaler <- pickle_load f ;;
     ret (Some model, Some scaler, true))
    (ret (None, None, false)).

(** *** The predictor (lines 118-145) *)

(** [scaler.transform(df)] on the global [scaler]: [None] has no such
    method; otherwise the object's method runs, and the global holds the
    object as the call left it.  The frame is returned as the call left it,
    with the scaled array. *)
Definition scaler_transform (df : DataFrame) : Py (DataFrame * ndarray) :=
  fun w =>
    match scaler w with
    | None => (w, Raise AttributeError)
    | Some o =>
        let '(o', df', r) := transform o df in
        ({| files := files w; model := model w; scaler := Some o';
            model_loaded := model_loaded w; trace := trace w |},
         match r with
         | Ok x => Ok (df', x)
         | Raise e => Raise e
         end)
    end.

(** [model.predict(x)] on the global [model]. *)
Definition model_predict (x : ndarray) : Py (list float) :=
  fun w =>
    match model w with
    | None => (w, Raise AttributeError)
    | Some o =>
        let '(o', r) := predict o x in
        ({| files := files w; model := Some o'; scaler := scaler w;
            model_loaded := model_loaded w; trace := trace w |}, r)
    end.

(** [ys[0]]. *)
Definition first {A : Type} (ys : list A) : result A :=
  match ys with
  | [] => Raise IndexError
  | y :: _ => Ok y
  end.

Definition predict_house_price
    (bedrooms grade : Z) (has_basement : bool) (living_in_m2 : float)
    (renovated nice_view perfect_condition : bool) (real_bathrooms : Z)
    (has_lavatory single_floor : bool) (month quartile_zone : Z)
  : Py (float * DataFrame) :=
  df <- lift (input_data bedrooms grade has_basement living_in_m2 renovated
                nice_view perfect_condition real_bathrooms has_lavatory
                single_floor month quartile_zone) ;;
  scaled <- scaler_transform df ;;
  let '(input_data, input_scaled) := scaled in
  ys <- model_predict input_scaled ;;
  prediction <- lift (first ys) ;;
  ret (prediction, input_data).

(** *** The page (lines 12-17, 22-97, 113, 150-230) *)

Definition not_found_message : string :=
  "Model files not found! Please add 'house_price_model.pkl' and 'scaler.pkl'.".

(** [model, scaler, model_loaded = load_model_and_scaler()]. *)
Definition set_globals (r : option Obj * option Obj * bool) : Py unit :=
  fun w =>
    let '(m, s, loaded) := r in
    ({| files := files w; model := m; scaler := s; model_loaded := loaded;
        trace := trace w |}, Ok tt).

Definition get_model_loaded : Py bool := fun w => (w, Ok (model_loaded w)).

(** The call at lines 207-211: it is recorded, with the globals the callee
    will see, before the callee runs. *)
Definition note_call : Py unit :=
  fun w =>
    ({| files := files w; model := model w; scaler := scaler w;
        model_loaded := model_loaded w;
        trace := trace w ++ [Call_predict_house_price (model w) (scaler w)] |},
     Ok tt).

(** A widget draws itself and returns what the user has set. *)
Definition widget {A : Type} (label : string) (value : A) : Py A :=
  render (Widget label) ;; ret value.

Definition script (ui : Widgets) : Py unit :=
  render PageConfig ;;
  render (Markdown "style") ;;
  r <- load_model_and_scaler ;;
  set_globals r ;;
  render (Markdown "House Price Predictor") ;;
  render (Markdown "Estimate the value of your property with AI-powered insights") ;;
  render (Markdown "---") ;;
  loaded <- get_model_loaded ;;
  (if negb loaded
   then render (ErrorBox not_found_message) ;; st_stop
   else ret tt) ;;
  render (Header "Property Details") ;;
  render (Markdown "---") ;;
  bedrooms <- widget "Bedrooms" (ui_bedrooms ui) ;;
  real_bathrooms <- widget "Bathrooms" (ui_real_bathrooms ui) ;;
  living_in_m2 <- widget "Living Area (m2)" (ui_living_in_m2 ui) ;;
  render (Markdown "---") ;;
  render (Subheader "Quality") ;;
  grade <- widget "Property Grade" (ui_grade ui) ;;
  quartile_zone <- widget "Zone Quality" (ui_quartile_zone ui) ;;
  render (Markdown "---") ;;
  render (Subheader "Features") ;;
  has_basement <- widget "Basement" (ui_has_basement ui) ;;
  renovated <- widget "Renovated" (ui_renovated ui) ;;
  nice_view <- widget "Nice View" (ui_nice_view ui) ;;
  perfect_condition <- widget "Perfect Condition" (ui_perfect_condition ui) ;;
  has_lavatory <- widget "Extra Lavatory" (ui_has_lavatory ui) ;;
  single_floor <- widget "Single Floor" (ui_single_floor ui) ;;
  render (Markdown "---") ;;
  month <- widget "Month of Sale" (ui_month ui) ;;
  predict <- widget "Predict House Price" (ui_predict ui) ;;
  render (Markdown "<br>") ;;
  if (predict : bool)
  then
    note_call ;;
    r <- predict_house_price bedrooms grade has_basement living_in_m2
           renovated nice_view perfect_condition real_bathrooms has_lavatory
           single_floor month quartile_zone ;;
    let '(predicted_price, input_df) := r in
    render (SuccessBox "Prediction Completed!") ;;
    render (PriceCard predicted_price)
  else
    render (InfoBox "Fill details on the left and click Predict House Price").

End Artifacts.

Arguments Absent {Obj}.
Arguments NoPermission {Obj}.
Arguments Garbage {Obj}.
Arguments Pickle {Obj} o.
Arguments Render {Obj} e.
Arguments Call_predict_house_price {Obj} model scaler.
Arguments Build_World {Obj}.
Arguments files {Obj} w path : rename.
Arguments model {Obj} w : rename.
Arguments scaler {Obj} w : rename.
Arguments model_loaded {Obj} w : rename.
Arguments trace {Obj} w : rename.
Arguments ret {Obj A} a w.
Arguments raise {Obj A} e w.
Arguments bind {Obj A B} c k w.
Arguments lift {Obj A} r w.
Arguments render {Obj} e w.
Arguments st_stop {Obj A} w.
Arguments open_rb {Obj} path w.
Arguments pickle_load {Obj} f w.
Arguments try_except_FileNotFoundError {Obj A} body handler w.
Arguments load_model_and_scaler {Obj} w.
Arguments scaler_transform {Obj} transform df w.
Arguments model_predict {Obj} predict x w.
Arguments predict_house_price {Obj} transform predict bedrooms grade
  has_basement living_in_m2 renovated nice_view perfect_condition
  real_bathrooms has_lavatory single_floor month quartile_zone w.
Arguments set_globals {Obj} r w.
Arguments get_model_loaded {Obj} w.
Arguments note_call {Obj} w.
Arguments widget {Obj A} label value w.
Arguments script {Obj} transform predict ui w.

(** ** The ranges of the widgets (lines 167-194) *)

Definition bedrooms_options : list Z := [1; 2; 3].
Definition real_bathrooms_options : list Z := [1; 2; 3].
Definition grade_options : list Z := [1; 2; 3; 4; 5].
Definition quartile_zone_options : list Z := [1; 2; 3; 4].
Definition month_options : list Z := [1; 2; 3; 4; 5; 6; 7; 8; 9; 10; 11; 12].

(** The slider of the living area runs from 49.0 to 400.0. *)
Definition living_in_m2_in_range (x : float) : bool :=
  (PrimFloat.leb 49 x && PrimFloat.leb x 400)%bool.

(** The raw inputs the page can send: each one within its widget's range
    (the six checkboxes are free). *)
Definition valid_inputs (bedrooms grade : Z) (living_in_m2 : float)
    (real_bathrooms month quartile_zone : Z) : Prop :=
  In bedrooms bedrooms_options /\
  In grade grade_options /\
  living_in_m2_in_range living_in_m2 = true /\
  In real_bathrooms real_bathrooms_options /\
  In month month_options /\
  In quartile_zone quartile_zone_options.

(** ** A sample pair of artifacts

    A standard scaler and a linear model, as scikit-learn fits them, to run
    the page on concrete inputs.  Neither method changes its receiver or
    its argument. *)

Module Sample.

Inductive estimator : Type :=
| StandardScaler (feature_names_in : list string) (mean scale : list float)
| LinearRegression (coef : list float) (intercept : float).

(** The rows of a frame as float64. *)
Definition to_numpy (df : DataFrame) : ndarray :=
  map (fun i => map (fun c => nth i (as_float64 (snd c)) PrimFloat.nan) df)
      (seq 0 (nrows df)).

Definition same_names (xs ys : list string) : bool :=
  if list_eq_dec string_dec xs ys then true else false.

(** [transform]: the frame must have the columns the scaler was fitted on,
    in their order; each value is centred and scaled. *)
Definition transform (o : estimator) (df : DataFrame)
  : estimator * DataFrame * result ndarray :=
  match o with
  | StandardScaler names mean scale =>
      if same_names (columns df) names
      then (o, df,
            Ok (map (fun row =>
                       map2 (fun x ms => PrimFloat.div
                                           (PrimFloat.sub x (fst ms)) (snd ms))
                            row (combine mean scale))
                    (to_numpy df)))
      else (o, df, Raise ValueError)
  | LinearRegression _ _ => (o, df, Raise AttributeError)
  end.

(** [predict]: one value per row. *)
Definition predict (o : estimator) (x : ndarray)
  : estimator * result (list float) :=
  match o with
  | LinearRegression coef intercept =>
      (o, Ok (map (fun row =>
                     fold_left PrimFloat.add (map2 PrimFloat.mul row coef)
                               intercept)
                  x))
  | StandardScaler _ _ _ => (o, Raise AttributeError)
  end.

Definition the_scaler : estimator :=
  StandardScaler feature_columns (repeat 0%float 16) (repeat 1%float 16).

Definition the_model : estimator :=
  LinearRegression (repeat 1000%float 16) 50000%float.

(** Both artifacts in place. *)
Definition installed (path : string) : file estimator :=
  if String.eqb path "house_price_model.pkl" then Pickle the_model
  else if String.eqb path "scaler.pkl" then Pickle the_scaler
  else Absent.

(** No artifact in place. *)
Definition empty_dir (path : string) : file estimator := Absent.

(** The model file is there but may not be read; the scaler is in place. *)
Definition model_locked (path : string) : file estimator :=
  if String.eqb path "house_price_model.pkl" then NoPermission
  else installed path.

(** The world before line 113 has run. *)
Definition fresh (fs : string -> file estimator) : World estimator :=
  {| files := fs; model := None; scaler := None; model_loaded := false;
     trace := [] |}.

(** The world after a successful load. *)
Definition loaded : World estimator :=
  {| files := installed; model := Some the_model; scaler := Some the_scaler;
     model_loaded := true; trace := [] |}.

(** The defaults of the widgets, with the button clicked or not. *)
Definition defaults (clicked : bool) : Widgets :=
  {| ui_bedrooms := 2; ui_real_bathrooms := 2; ui_living_in_m2 := 180;
     ui_grade := 3; ui_quartile_zone := 2;
     ui_has_basement := false; ui_renovated := false; ui_nice_view := false;
     ui_perfect_condition := false; ui_has_lavatory := false;
     ui_single_floor := false; ui_month := 1; ui_predict := clicked |}.

End Sample.

(** ** The boundary scenario *)

(** The feature row for bedrooms = 2, real_bathrooms = 2,
    living_in_m2 = 180.0, grade = 3, quartile_zone = 2, month = 6 and no
    box ticked. *)
Definition boundary_row : DataFrame :=
  [ ("bedrooms", Int64 [2]);
    ("grade", Int64 [3]);
    ("has_basement", Int64 [0]);
    ("living_in_m2", Float64 [180%float]);
    ("renovated", Int64 [0]);
    ("nice_view", Int64 [0]);
    ("perfect_condition", Int64 [0]);
    ("real_bathrooms", Int64 [2]);
    ("has_lavatory", Int64 [0]);
    ("single_floor", Int64 [0]);
    ("month", Int64 [6]);
    ("quartile_zone", Int64 [2]);
    ("bathroom_bedroom_ratio", Float64 [(2 / 3)%float]);
    ("total_rooms", Int64 [4]);
    ("luxury_score", Float64 [5.4%float]);
    ("quality_index", Int64 [3]) ].

(** ** Startup states *)

(** An artifact is missing when there is no such file, and unreadable when
    the file is there but does not give an object. *)
Definition missing {Obj : Type} (f : file Obj) : Prop := f = Absent.

Definition unreadable {Obj : Type} (f : file Obj) : Prop :=
  f = NoPermission \/ f = Garbage.

Definition readable {Obj : Type} (f : file Obj) : Prop :=
  exists o, f = Pickle o.

(** Whether an event is a call of [predict_house_price]. *)
Definition is_call {Obj : Type} (e : event Obj) : bool :=
  match e with
  | Call_predict_house_price _ _ => true
  | Render _ => false
  end.

(** * Properties *)

(** ** Machine integers *)

Lemma wrap64_small (z : Z) : in_int64 z -> wrap64 z = z.
Proof.
  unfold in_int64, min_int64, max_int64, wrap64. intros H.
  rewrite Z.mod_small; lia.
Qed.

Lemma wrap64_range (z : Z) : in_int64 (wrap64 z).
Proof.
  unfold in_int64, min_int64, max_int64, wrap64.
  pose proof (Z.mod_pos_bound (z + 2 ^ 63) (2 ^ 64) ltac:(lia)). lia.
Qed.


(** ** The feature row *)

Section Derived_features.

Variables (bedrooms grade : Z) (has_basement : bool) (living_in_m2 : float)
  (renovated nice_view perfect_condition : bool) (real_bathrooms : Z)
  (has_lavatory single_floor : bool) (month quartile_zone : Z).

Local Abbreviation row :=
  (input_data bedrooms grade has_basement living_in_m2 renovated nice_view
     perfect_condition real_bathrooms has_lavatory single_floor month
     quartile_zone).

Local Abbreviation valid :=
  (valid_inputs bedrooms grade living_in_m2 real_bathrooms month
     quartile_zone).

(** The derivation never raises: every column it reads is there and every
    column it stores has one row.  The frame it builds, with the int64
    arithmetic as numpy does it. *)
Lemma input_data_total :
  row = Ok
    [ ("bedrooms", Int64 [bedrooms]);
      ("grade", Int64 [grade]);
      ("has_basement", Int64 [int_of_bool has_basement]);
      ("living_in_m2", Float64 [living_in_m2]);
      ("renovated", Int64 [int_of_bool renovated]);
      ("nice_view", Int64 [int_of_bool nice_view]);
      ("perfect_condition", Int64 [int_of_bool perfect_condition]);
      ("real_bathrooms", Int64 [real_bathrooms]);
      ("has_lavatory", Int64 [int_of_bool has_lavatory]);
      ("single_floor", Int64 [int_of_bool single_floor]);
      ("month", Int64 [month]);
      ("quartile_zone", Int64 [quartile_zone]);
      ("bathroom_bedroom_ratio",
       Float64 [PrimFloat.div (float_of_Z real_bathrooms)
                              (float_of_Z (wrap64 (bedrooms + 1)))]);
      ("total_rooms", Int64 [wrap64 (bedrooms + real_bathrooms)]);
      ("luxury_score",
       Float64 [PrimFloat.div (PrimFloat.mul (float_of_Z grade) living_in_m2)
                              (float_of_Z 100)]);
      ("quality_index",
       Int64 [wrap64 (grade * wrap64 (int_of_bool perfect_condition + 1))]) ].
Proof. reflexivity. Qed.

Lemma valid_bedrooms : valid -> 1 <= bedrooms <= 3.
Proof.
  unfold valid_inputs, bedrooms_options. simpl. intros (H & _). lia.
Qed.

Lemma valid_real_bathrooms : valid -> 1 <= real_bathrooms <= 3.
Proof.
  unfold valid_inputs, real_bathrooms_options. simpl.
  intros (_ & _ & _ & H & _). lia.
Qed.

Lemma valid_grade : valid -> 1 <= grade <= 5.
Proof.
  unfold valid_inputs, grade_options. simpl. intros (_ & H & _). lia.
Qed.

Ltac small_int64 :=
  apply wrap64_small; unfold in_int64, min_int64, max_int64; lia.

(** C2. For every valid combination of raw inputs (bedrooms and
    real_bathrooms in 1..3), the column bathroom_bedroom_ratio of the frame
    that predict_house_price builds holds the binary64 quotient of
    real_bathrooms by bedrooms + 1: the two integers converted to binary64
    and divided in floating point. *)
Theorem bathroom_bedroom_ratio_exact :
  valid ->
  exists df,
    row = Ok df /\
    getitem df "bathroom_bedroom_ratio" =
      Ok (Float64 [PrimFloat.div (float_of_Z real_bathrooms)
                                 (float_of_Z (bedrooms + 1))]).
Proof.
  intros Hv. pose proof (valid_bedrooms Hv) as Hb.
  rewrite input_data_total. eexists. split; [reflexivity|].
  cbn [getitem String.eqb Ascii.eqb Bool.eqb].
  replace (wrap64 (bedrooms + 1)) with (bedrooms + 1) by (symmetry; small_int64).
  reflexivity.
Qed.

(** C3. For every valid combination of raw inputs, the column luxury_score
    holds grade * living_in_m2 / 100 as Python evaluates it: the grade
    converted to binary64, multiplied by the area, and the product divided
    by 100.0. *)
Theorem luxury_score_exact :
  valid ->
  exists df,
    row = Ok df /\
    getitem df "luxury_score" =
      Ok (Float64 [PrimFloat.div
                     (PrimFloat.mul (float_of_Z grade) living_in_m2)
                     (float_of_Z 100)]).
Proof.
  intros _. rewrite input_data_total. eexists. split; reflexivity.
Qed.

(** C4. For every valid combination of raw inputs, the column quality_index
    holds grade * (flag + 1), where flag is 1 when perfect_condition is true
    and 0 otherwise. *)
Theorem quality_index_exact :
  valid ->
  exists df,
    row = Ok df /\
    getitem df "quality_index" =
      Ok (Int64 [grade * ((if perfect_condition then 1 else 0) + 1)]).
Proof.
  intros Hv. pose proof (valid_grade Hv) as Hg.
  rewrite input_data_total. eexists. split; [reflexivity|].
  cbn [getitem String.eqb Ascii.eqb Bool.eqb].
  unfold int_of_bool.
  replace (wrap64 ((if perfect_condition then 1 else 0) + 1))
    with ((if perfect_condition then 1 else 0) + 1)
    by (symmetry; destruct perfect_condition; small_int64).
  replace (wrap64 (grade * ((if perfect_condition then 1 else 0) + 1)))
    with (grade * ((if perfect_condition then 1 else 0) + 1))
    by (symmetry; destruct perfect_condition; small_int64).
  reflexivity.
Qed.

(** C5. For every valid combination of raw inputs, the column total_rooms
    holds bedrooms + real_bathrooms. *)
Theorem total_rooms_exact :
  valid ->
  exists df,
    row = Ok df /\
    getitem df "total_rooms" = Ok (Int64 [bedrooms + real_bathrooms]).
Proof.
  intros Hv. pose proof (valid_bedrooms Hv) as Hb.
  pose proof (valid_real_bathrooms Hv) as Hr.
  rewrite input_data_total. eexists. split; [reflexivity|].
  cbn [getitem String.eqb Ascii.eqb Bool.eqb].
  replace (wrap64 (bedrooms + real_bathrooms))
    with (bedrooms + real_bathrooms) by (symmetry; small_int64).
  reflexivity.
Qed.


(** Within the widget's range the denominator, as the float that the
    division sees, is 2.0, 3.0 or 4.0. *)
Lemma ratio_denominator_float :
  In bedrooms bedrooms_options ->
  In (float_of_Z (wrap64 (bedrooms + 1))) [2%float; 3%float; 4%float].
Proof.
  unfold bedrooms_options. simpl.
  intros [<-|[<-|[<-|[]]]]; vm_compute; auto.
Qed.

(** The frame has the sixteen columns of the fitted order, whatever the
    inputs. *)
Lemma input_data_columns :
  exists df, row = Ok df /\ columns df = feature_columns.
Proof. rewrite input_data_total. eexists. split; reflexivity. Qed.

End Derived_features.

(** Outside the int64 range of non-negative values the denominator can be
    zero: bedrooms = -1. *)
Lemma ratio_denominator_zero_at_minus_one :
  series_add_int (Int64 [-1]) 1 = Int64 [0].
Proof. reflexivity. Qed.

(** ** The loader *)

Section Loader.

Variable Obj : Type.
Implicit Type w : World Obj.

(** What the loader does, by the state of the two files: the model file is
    read first, and only a file that is not there is answered with the
    triple of the failure. *)
Lemma load_model_and_scaler_cases w :
  load_model_and_scaler w =
    (w, match files w "house_price_model.pkl" with
        | Absent => Ok (None, None, false)
        | NoPermission => Raise PermissionError
        | Garbage => Raise UnpicklingError
        | Pickle m =>
            match files w "scaler.pkl" with
            | Absent => Ok (None, None, false)
            | NoPermission => Raise PermissionError
            | Garbage => Raise UnpicklingError
            | Pickle s => Ok (Some m, Some s, true)
            end
        end).
Proof.
  unfold load_model_and_scaler, try_except_FileNotFoundError, bind, open_rb.
  destruct (files w "house_price_model.pkl"); cbn; try reflexivity.
  destruct (files w "scaler.pkl"); reflexivity.
Qed.

(** The loader leaves the state as it found it. *)
Lemma load_model_and_scaler_state w : fst (load_model_and_scaler w) = w.
Proof. rewrite load_model_and_scaler_cases. reflexivity. Qed.

(** A reported failure comes with no model and no scaler. *)
Lemma load_model_and_scaler_false w w' (m s : option Obj) :
  load_model_and_scaler w = (w', Ok (m, s, false)) ->
  w' = w /\ m = None /\ s = None.
Proof.
  rewrite load_model_and_scaler_cases.
  destruct (files w "house_price_model.pkl");
    [| | |destruct (files w "scaler.pkl")];
    intros H; inversion H; auto.
Qed.

(** A reported failure means that the first file that did not load was not
    there. *)
Lemma load_model_and_scaler_false_inv w w' (m s : option Obj) :
  load_model_and_scaler w = (w', Ok (m, s, false)) ->
  missing (files w "house_price_model.pkl") \/
  (readable (files w "house_price_model.pkl") /\
   missing (files w "scaler.pkl")).
Proof.
  rewrite load_model_and_scaler_cases. unfold missing, readable.
  destruct (files w "house_price_model.pkl") as [| | |om];
    [left; reflexivity | discriminate | discriminate |].
  destruct (files w "scaler.pkl"); try discriminate.
  intros _. right. split; [exists om|]; reflexivity.
Qed.

(** An unreadable model file makes the loader raise, whatever the scaler
    file is. *)
Lemma load_model_and_scaler_unreadable_model w :
  unreadable (files w "house_price_model.pkl") ->
  exists e, load_model_and_scaler w = (w, Raise e) /\ e <> FileNotFoundError.
Proof.
  rewrite load_model_and_scaler_cases. intros [H|H]; rewrite H.
  - exists PermissionError. split; [reflexivity | discriminate].
  - exists UnpicklingError. split; [reflexivity | discriminate].
Qed.

(** So does an unreadable scaler file, once the model has been read. *)
Lemma load_model_and_scaler_unreadable_scaler w :
  readable (files w "house_price_model.pkl") ->
  unreadable (files w "scaler.pkl") ->
  exists e, load_model_and_scaler w = (w, Raise e) /\ e <> FileNotFoundError.
Proof.
  rewrite load_model_and_scaler_cases. intros [m Hm] [H|H]; rewrite Hm, H.
  - exists PermissionError. split; [reflexivity | discriminate].
  - exists UnpicklingError. split; [reflexivity | discriminate].
Qed.

(** C1, as amended. In every startup state in which the model artifact is
    missing, or the model artifact is readable and the scaler artifact is
    missing, load_model_and_scaler returns the triple (None, None, False)
    and does not raise. *)
Theorem load_model_and_scaler_missing w :
  missing (files w "house_price_model.pkl") \/
  (readable (files w "house_price_model.pkl") /\
   missing (files w "scaler.pkl")) ->
  load_model_and_scaler w = (w, Ok (None, None, false)).
Proof.
  rewrite load_model_and_scaler_cases. unfold missing, readable.
  intros [H|[[m Hm] Hs]].
  - rewrite H. reflexivity.
  - rewrite Hm, Hs. reflexivity.
Qed.

End Loader.

(** ** The predictor *)

Section Predictor.

Variable Obj : Type.
Variable transform : Obj -> DataFrame -> Obj * DataFrame * result ndarray.
Variable predict : Obj -> ndarray -> Obj * result (list float).
Implicit Type w : World Obj.

Variables (bedrooms grade : Z) (has_basement : bool) (living_in_m2 : float)
  (renovated nice_view perfect_condition : bool) (real_bathrooms : Z)
  (has_lavatory single_floor : bool) (month quartile_zone : Z).

Local Abbreviation row :=
  (input_data bedrooms grade has_basement living_in_m2 renovated nice_view
     perfect_condition real_bathrooms has_lavatory single_floor month
     quartile_zone).

Local Abbreviation call :=
  (predict_house_price transform predict bedrooms grade has_basement
     living_in_m2 renovated nice_view perfect_condition real_bathrooms
     has_lavatory single_floor month quartile_zone).

(** Storing in a global what it already holds changes nothing. *)
Lemma world_same w (m s : option Obj) :
  model w = m -> scaler w = s ->
  {| files := files w; model := m; scaler := s;
     model_loaded := model_loaded w; trace := trace w |} = w.
Proof. destruct w; simpl; intros; subst; reflexivity. Qed.

(** The predictor draws nothing and records nothing. *)
Lemma predict_house_price_trace w : trace (fst (call w)) = trace w.
Proof.
  unfold predict_house_price, bind, lift, scaler_transform, model_predict.
  rewrite input_data_total.
  destruct (scaler w) as [o|]; [|reflexivity].
  destruct (transform o _) as [[o' df'] [x|e]]; [|reflexivity].
  cbn. destruct (model w) as [m|]; [|reflexivity].
  destruct (predict m x) as [m' [ys|e]]; [|reflexivity].
  cbn. destruct ys; reflexivity.
Qed.

(** The predictor with both artifacts in place: the frame goes to the
    scaler, the scaled array to the model, and the first prediction comes
    back with the frame. *)
Lemma predict_house_price_returns w df (o o' m m' : Obj) df' x p rest :
  row = Ok df ->
  scaler w = Some o -> model w = Some m ->
  transform o df = (o', df', Ok x) ->
  predict m x = (m', Ok (p :: rest)) ->
  call w =
    ({| files := files w; model := Some m'; scaler := Some o';
        model_loaded := model_loaded w; trace := trace w |},
     Ok (p, df')).
Proof.
  intros Hrow Hs Hm Ht Hp.
  unfold predict_house_price, bind, lift, scaler_transform, model_predict.
  rewrite Hrow, Hs, Ht. cbn. rewrite Hm, Hp. reflexivity.
Qed.


Section Fixed_artifacts.

(** The artifacts are fixed: neither method changes the object it is called
    on, and [transform] leaves the frame it is given as it is (it returns a
    new array). *)
Hypothesis transform_keeps_scaler :
  forall o df, fst (fst (transform o df)) = o.
Hypothesis transform_keeps_frame :
  forall o df, snd (fst (transform o df)) = df.
Hypothesis predict_keeps_model :
  forall o x, fst (predict o x) = o.

(** C7. With a fixed model and scaler, a call of predict_house_price leaves
    the state as it found it (the files, the three globals and the page),
    and a second call with the same arguments gives what the first gave:
    the same prediction and the same feature row, or the same exception. *)
Theorem predict_house_price_idempotent w :
  let first_call :=
    predict_house_price transform predict bedrooms grade has_basement
      living_in_m2 renovated nice_view perfect_condition real_bathrooms
      has_lavatory single_floor month quartile_zone w in
  let second_call :=
    predict_house_price transform predict bedrooms grade has_basement
      living_in_m2 renovated nice_view perfect_condition real_bathrooms
      has_lavatory single_floor month quartile_zone (fst first_call) in
  fst first_call = w /\
  fst second_call = w /\
  snd second_call = snd first_call.
Proof.
  cbv zeta.
  assert (H : fst (call w) = w).
  { unfold predict_house_price, bind, lift, scaler_transform, model_predict.
    rewrite input_data_total.
    destruct (scaler w) as [o|] eqn:Hs; [|reflexivity].
    pose proof (transform_keeps_scaler o) as Hk.
    match goal with |- context [transform o ?d] =>
      specialize (Hk d); destruct (transform o d) as [[o' df'] r] end.
    simpl in Hk. subst o'.
    rewrite (world_same w _ _ eq_refl Hs).
    destruct r as [x|e]; [|reflexivity].
    destruct (model w) as [m|] eqn:Hm; [|reflexivity].
    pose proof (predict_keeps_model m x) as Hk.
    destruct (predict m x) as [m' r]. simpl in Hk. subst m'.
    rewrite (world_same w _ _ Hm eq_refl).
    destruct r as [ys|e]; [|reflexivity].
    cbn. destruct ys; reflexivity. }
  rewrite H. auto.
Qed.


End Fixed_artifacts.

End Predictor.

(** ** The boundary scenario and the page *)

Section Page_flow.

Variable Obj : Type.
Variable transform : Obj -> DataFrame -> Obj * DataFrame * result ndarray.
Variable predict : Obj -> ndarray -> Obj * result (list float).
Implicit Type w : World Obj.

(** C6. For bedrooms = 2, real_bathrooms = 2, living_in_m2 = 180.0,
    grade = 3, quartile_zone = 2, month = 6 and no box ticked, the frame
    that predict_house_price builds has bathroom_bedroom_ratio = 2/3,
    total_rooms = 4, luxury_score = 5.4 and quality_index = 3; and with the
    two artifacts loaded, the price it returns is the first value that the
    model's predict gives for the scaler's transform of exactly that
    frame. *)
Theorem boundary_scenario w (o o' m m' : Obj) df' x p rest :
  scaler w = Some o ->
  model w = Some m ->
  transform o boundary_row = (o', df', Ok x) ->
  predict m x = (m', Ok (p :: rest)) ->
  input_data 2 3 false 180 false false false 2 false false 6 2
    = Ok boundary_row /\
  getitem boundary_row "bathroom_bedroom_ratio" = Ok (Float64 [(2 / 3)%float]) /\
  getitem boundary_row "total_rooms" = Ok (Int64 [4]) /\
  getitem boundary_row "luxury_score" = Ok (Float64 [5.4%float]) /\
  getitem boundary_row "quality_index" = Ok (Int64 [3]) /\
  snd (predict_house_price transform predict
         2 3 false 180 false false false 2 false false 6 2 w)
    = Ok (p, df').
Proof.
  intros Hs Hm Ht Hp.
  assert (Hrow : input_data 2 3 false 180 false false false 2 false false 6 2
                 = Ok boundary_row) by (vm_compute; reflexivity).
  repeat split; try reflexivity; try exact Hrow.
  erewrite predict_house_price_returns; eauto. reflexivity.
Qed.

(** C8. Whenever load_model_and_scaler reports loaded = False, the run of
    the page ends at st.stop(), right after the error box with the
    not-found message has been drawn; predict_house_price is not called in
    that run, whatever the widgets hold and whether or not the button was
    clicked. *)
Theorem script_halts_when_not_loaded (ui : Widgets) w w1 (m s : option Obj) :
  load_model_and_scaler w = (w1, Ok (m, s, false)) ->
  exists w' evs,
    script transform predict ui w = (w', Raise StopException) /\
    trace w' = (trace w ++ evs)%list /\
    last evs (Render PageConfig) = Render (ErrorBox not_found_message) /\
    existsb is_call evs = false.
Proof.
  intros H. rewrite load_model_and_scaler_cases in H.
  unfold script, bind, render, set_globals, get_model_loaded, st_stop, raise.
  rewrite load_model_and_scaler_cases. cbn [files].
  destruct (files w "house_price_model.pkl");
    [| discriminate | discriminate
     | destruct (files w "scaler.pkl"); try discriminate ];
  cbn; do 2 eexists; (split; [reflexivity|]); cbn [trace];
  rewrite <- !app_assoc; (split; [reflexivity|]); split; reflexivity.
Qed.

(** In any run of the page, a call of predict_house_price sees a model and
    a scaler that are objects, not None. *)
Lemma script_calls_with_artifacts (ui : Widgets) w :
  exists evs,
    trace (fst (script transform predict ui w)) = (trace w ++ evs)%list /\
    forall m s, In (Call_predict_house_price m s) evs ->
                m <> None /\ s <> None.
Proof.
  unfold script, bind, render, set_globals, get_model_loaded, st_stop, raise,
    widget, ret, note_call.
  rewrite load_model_and_scaler_cases. cbn [files].
  assert (Hno : forall (A : Prop) (evs : list element) (m s : option Obj),
             In (Call_predict_house_price m s) (map Render evs) -> A).
  { intros A evs m s Hin. apply in_map_iff in Hin.
    destruct Hin as (e & He & _). discriminate. }
  destruct (files w "house_price_model.pkl") as [| | |om];
    [| | |destruct (files w "scaler.pkl") as [| | |os]];
    cbn -[predict_house_price];
    try (eexists (map Render [_; _; _; _; _; _]); split;
         [rewrite <- !app_assoc; reflexivity | intros ? ?; apply Hno]);
    try (eexists (map Render [_; _]); split;
         [rewrite <- !app_assoc; reflexivity | intros ? ?; apply Hno]).
  destruct (ui_predict ui).
  - match goal with |- context [predict_house_price ?t ?p ?a1 ?a2 ?a3 ?a4 ?a5
                                  ?a6 ?a7 ?a8 ?a9 ?a10 ?a11 ?a12 ?W] =>
      pose proof (predict_house_price_trace Obj t p a1 a2 a3 a4 a5 a6 a7 a8 a9
                    a10 a11 a12 W) as Htr;
      destruct (predict_house_price t p a1 a2 a3 a4 a5 a6 a7 a8 a9 a10 a11
                  a12 W) as [w2 [[price df]|e]]
    end; cbn in Htr |- *; rewrite Htr, <- !app_assoc; cbn;
    eexists; (split; [reflexivity|]);
    intros m s Hin;
    repeat (destruct Hin as [Hin|Hin];
            [try discriminate; inversion Hin; split; discriminate|]);
    contradiction.
  - cbn. rewrite <- !app_assoc. cbn. eexists. split; [reflexivity|].
    intros m s Hin.
    repeat (destruct Hin as [Hin|Hin]; [discriminate|]). contradiction.
Qed.

End Page_flow.

(** ** The properties on concrete runs *)

(** The sample artifacts are fixed. *)
Lemma sample_transform_keeps (o : Sample.estimator) (df : DataFrame) :
  fst (Sample.transform o df) = (o, df).
Proof.
  destruct o as [names mean scale|coef b]; simpl; [|reflexivity].
  destruct (Sample.same_names (columns df) names); reflexivity.
Qed.

Lemma sample_predict_keeps (o : Sample.estimator) (x : ndarray) :
  fst (Sample.predict o x) = o.
Proof. destruct o; reflexivity. Qed.

(** The widgets' defaults with June as the month are valid inputs. *)
Lemma valid_inputs_boundary : valid_inputs 2 3 180 2 6 2.
Proof.
  unfold valid_inputs, bedrooms_options, grade_options,
    real_bathrooms_options, month_options, quartile_zone_options.
  simpl. repeat split; auto 20.
Qed.

Lemma bathroom_bedroom_ratio_exact_witness :
  valid_inputs 2 3 180 2 6 2 /\
  exists df,
    input_data 2 3 false 180 false false false 2 false false 6 2 = Ok df /\
    getitem df "bathroom_bedroom_ratio" =
      Ok (Float64 [PrimFloat.div (float_of_Z 2) (float_of_Z (2 + 1))]).
Proof.
  split; [exact valid_inputs_boundary|].
  apply (bathroom_bedroom_ratio_exact 2 3 false 180 false false false 2
           false false 6 2 valid_inputs_boundary).
Defined.

Lemma luxury_score_exact_witness :
  valid_inputs 2 3 180 2 6 2 /\
  exists df,
    input_data 2 3 false 180 false false false 2 false false 6 2 = Ok df /\
    getitem df "luxury_score" =
      Ok (Float64 [PrimFloat.div (PrimFloat.mul (float_of_Z 3) 180)
                                 (float_of_Z 100)]).
Proof.
  split; [exact valid_inputs_boundary|].
  apply (luxury_score_exact 2 3 false 180 false false false 2
           false false 6 2 valid_inputs_boundary).
Defined.

Lemma quality_index_exact_witness :
  valid_inputs 2 5 180 2 6 2 /\
  exists df,
    input_data 2 5 false 180 false false true 2 false false 6 2 = Ok df /\
    getitem df "quality_index" = Ok (Int64 [5 * (1 + 1)]).
Proof.
  assert (Hv : valid_inputs 2 5 180 2 6 2).
  { unfold valid_inputs, bedrooms_options, grade_options,
      real_bathrooms_options, month_options, quartile_zone_options.
    simpl. repeat split; auto 20. }
  split; [exact Hv|].
  apply (quality_index_exact 2 5 false 180 false false true 2
           false false 6 2 Hv).
Defined.

Lemma total_rooms_exact_witness :
  valid_inputs 2 3 180 2 6 2 /\
  exists df,
    input_data 2 3 false 180 false false false 2 false false 6 2 = Ok df /\
    getitem df "total_rooms" = Ok (Int64 [2 + 2]).
Proof.
  split; [exact valid_inputs_boundary|].
  apply (total_rooms_exact 2 3 false 180 false false false 2
           false false 6 2 valid_inputs_boundary).
Defined.


Lemma wrap64_top : wrap64 (max_int64 + 1) = min_int64.
Proof. reflexivity. Qed.

(** C1 as stated fails: with the model file present but not readable (and
    the scaler in place), the loader raises PermissionError instead of
    returning a triple. *)
Lemma load_model_and_scaler_unreadable_raises :
  unreadable (files (Sample.fresh Sample.model_locked) "house_price_model.pkl")
  /\ snd (load_model_and_scaler (Sample.fresh Sample.model_locked))
     = Raise PermissionError
  /\ forall m s,
       snd (load_model_and_scaler (Sample.fresh Sample.model_locked))
       <> Ok (m, s, false).
Proof.
  split; [left; reflexivity|]. split; [reflexivity|].
  intros m s. discriminate.
Qed.

Lemma load_model_and_scaler_missing_witness :
  (missing (files (Sample.fresh Sample.empty_dir) "house_price_model.pkl") \/
   (readable (files (Sample.fresh Sample.empty_dir) "house_price_model.pkl")
    /\ missing (files (Sample.fresh Sample.empty_dir) "scaler.pkl"))) /\
  load_model_and_scaler (Sample.fresh Sample.empty_dir)
    = (Sample.fresh Sample.empty_dir, Ok (None, None, false)).
Proof.
  assert (H : missing
                (files (Sample.fresh Sample.empty_dir) "house_price_model.pkl"))
    by reflexivity.
  split; [left; exact H|].
  apply (load_model_and_scaler_missing Sample.estimator
           (Sample.fresh Sample.empty_dir) (or_introl H)).
Defined.

Lemma predict_house_price_idempotent_witness :
  let first_call :=
    predict_house_price Sample.transform Sample.predict
      2 3 false 180 false false false 2 false false 6 2 Sample.loaded in
  let second_call :=
    predict_house_price Sample.transform Sample.predict
      2 3 false 180 false false false 2 false false 6 2 (fst first_call) in
  fst first_call = Sample.loaded /\
  fst second_call = Sample.loaded /\
  snd second_call = snd first_call.
Proof.
  apply (predict_house_price_idempotent Sample.estimator
           Sample.transform Sample.predict
           2 3 false 180 false false false 2 false false 6 2
           (fun o df => f_equal fst (sample_transform_keeps o df))
           sample_predict_keeps Sample.loaded).
Defined.


(** With the sample artifacts the boundary scenario is priced at
    258066.66666666666. *)
Lemma boundary_scenario_witness :
  input_data 2 3 false 180 false false false 2 false false 6 2
    = Ok boundary_row /\
  getitem boundary_row "bathroom_bedroom_ratio" = Ok (Float64 [(2 / 3)%float]) /\
  getitem boundary_row "total_rooms" = Ok (Int64 [4]) /\
  getitem boundary_row "luxury_score" = Ok (Float64 [5.4%float]) /\
  getitem boundary_row "quality_index" = Ok (Int64 [3]) /\
  snd (predict_house_price Sample.transform Sample.predict
         2 3 false 180 false false false 2 false false 6 2 Sample.loaded)
    = Ok (258066.66666666666%float, boundary_row).
Proof.
  apply (boundary_scenario Sample.estimator Sample.transform Sample.predict
           Sample.loaded Sample.the_scaler Sample.the_scaler
           Sample.the_model Sample.the_model boundary_row
           (Sample.to_numpy boundary_row) 258066.66666666666%float []);
    vm_compute; reflexivity.
Defined.

Lemma script_halts_when_not_loaded_witness :
  load_model_and_scaler (Sample.fresh Sample.empty_dir)
    = (Sample.fresh Sample.empty_dir, Ok (None, None, false)) /\
  exists w' evs,
    script Sample.transform Sample.predict (Sample.defaults true)
      (Sample.fresh Sample.empty_dir) = (w', Raise StopException) /\
    trace w' = (trace (Sample.fresh Sample.empty_dir) ++ evs)%list /\
    last evs (Render PageConfig) = Render (ErrorBox not_found_message) /\
    existsb is_call evs = false.
Proof.
  assert (H : load_model_and_scaler (Sample.fresh Sample.empty_dir)
              = (Sample.fresh Sample.empty_dir, Ok (None, None, false)))
    by reflexivity.
  split; [exact H|].
  apply (script_halts_when_not_loaded Sample.estimator Sample.transform
           Sample.predict (Sample.defaults true)
           (Sample.fresh Sample.empty_dir) (Sample.fresh Sample.empty_dir)
           None None H).
Defined.

(** With both artifacts in place and the button clicked, the page calls the
    predictor and draws the price. *)
Lemma script_predicts_when_loaded :
  let run := script Sample.transform Sample.predict (Sample.defaults true)
               (Sample.fresh Sample.installed) in
  snd run = Ok tt /\
  existsb is_call (trace (fst run)) = true /\
  last (trace (fst run)) (Render PageConfig)
    = Render (PriceCard 253066.66666666666%float).
Proof. vm_compute. repeat split. Qed.

(** * Further properties of the loader, the predictor and the page *)

(** ** The loader: success, failure and what it leaves alone *)

Section Loader_outcomes.

Variable Obj : Type.
Implicit Type w : World Obj.



(** X3. Whatever the files are, the loader changes nothing: not the files,
    not the three globals (they are only set by the assignment at line 113),
    not the page. *)
Theorem load_model_and_scaler_changes_nothing w :
  fst (load_model_and_scaler w) = w.
Proof.
  unfold load_model_and_scaler, try_except_FileNotFoundError, bind, open_rb.
  destruct (files w "house_price_model.pkl"); cbn; try reflexivity.
  destruct (files w "scaler.pkl"); reflexivity.
Qed.

End Loader_outcomes.

(** ** The predictor: how failures travel and what it leaves alone *)

Section Predictor_outcomes.

Variable Obj : Type.
Variable transform : Obj -> DataFrame -> Obj * DataFrame * result ndarray.
Variable predict : Obj -> ndarray -> Obj * result (list float).
Implicit Type w : World Obj.

Variables (bedrooms grade : Z) (has_basement : bool) (living_in_m2 : float)
  (renovated nice_view perfect_condition : bool) (real_bathrooms : Z)
  (has_lavatory single_floor : bool) (month quartile_zone : Z).

Local Abbreviation row :=
  (input_data bedrooms grade has_basement living_in_m2 renovated nice_view
     perfect_condition real_bathrooms has_lavatory single_floor month
     quartile_zone).

Local Abbreviation call :=
  (predict_house_price transform predict bedrooms grade has_basement
     living_in_m2 renovated nice_view perfect_condition real_bathrooms
     has_lavatory single_floor month quartile_zone).

Local Abbreviation row_ok :=
  (input_data_total bedrooms grade has_basement living_in_m2 renovated
     nice_view perfect_condition real_bathrooms has_lavatory single_floor
     month quartile_zone).

(** The whole of the predictor, step by step, once the frame is known. *)
Lemma predict_house_price_cases w df :
  row = Ok df ->
  call w =
    match scaler w with
    | None => (w, Raise AttributeError)
    | Some o =>
        let '(o', df', r) := transform o df in
        match r with
        | Raise e =>
            ({| files := files w; model := model w; scaler := Some o';
                model_loaded := model_loaded w; trace := trace w |}, Raise e)
        | Ok x =>
            match model w with
            | None =>
                ({| files := files w; model := None; scaler := Some o';
                    model_loaded := model_loaded w; trace := trace w |},
                 Raise AttributeError)
            | Some m =>
                let '(m', r') := predict m x in
                ({| files := files w; model := Some m'; scaler := Some o';
                    model_loaded := model_loaded w; trace := trace w |},
                 match r' with
                 | Raise e => Raise e
                 | Ok [] => Raise IndexError
                 | Ok (p :: _) => Ok (p, df')
                 end)
            end
        end
    end.
Proof.
  intros Hrow.
  unfold predict_house_price, bind, lift, scaler_transform, model_predict.
  rewrite Hrow.
  destruct (scaler w) as [o|]; [|reflexivity].
  destruct (transform o df) as [[o' df'] [x|e]]; [|reflexivity].
  cbn. destruct (model w) as [m|] eqn:Hm; [|rewrite <- Hm; reflexivity].
  destruct (predict m x) as [m' [ys|e]]; [|reflexivity].
  cbn. destruct ys; reflexivity.
Qed.

(** X4. With no scaler loaded (the global is None), predict_house_price
    raises AttributeError at scaler.transform; the model is not reached and
    the state is left as it was. *)
Theorem predict_house_price_without_scaler w :
  scaler w = None ->
  predict_house_price transform predict bedrooms grade has_basement
    living_in_m2 renovated nice_view perfect_condition real_bathrooms
    has_lavatory single_floor month quartile_zone w
  = (w, Raise AttributeError).
Proof.
  intros Hs. rewrite (predict_house_price_cases w _ row_ok).
  rewrite Hs. reflexivity.
Qed.

(** X5. When scaler.transform raises on the assembled frame (a frame that
    does not fit what the scaler was fitted on), predict_house_price raises
    the same exception and model.predict is not called: the model is as it
    was, whatever its predict method would do. *)
Theorem predict_house_price_scaler_failure w df (o : Obj) (e : exn) :
  input_data bedrooms grade has_basement living_in_m2 renovated nice_view
    perfect_condition real_bathrooms has_lavatory single_floor month
    quartile_zone = Ok df ->
  scaler w = Some o ->
  snd (transform o df) = Raise e ->
  let r := predict_house_price transform predict bedrooms grade has_basement
             living_in_m2 renovated nice_view perfect_condition
             real_bathrooms has_lavatory single_floor month quartile_zone w in
  snd r = Raise e /\ model (fst r) = model w.
Proof.
  intros Hrow Hs Ht. cbv zeta.
  rewrite (predict_house_price_cases w df Hrow), Hs.
  destruct (transform o df) as [[o' df'] r]. simpl in Ht. subst r.
  split; reflexivity.
Qed.

(** X6. predict_house_price returns a price exactly when every step works:
    there is a scaler, its transform returns an array for the assembled
    frame, there is a model, and its predict returns a non-empty list; the
    price is the first element of that list and the frame is the one the
    scaler was given, as the scaler left it. *)
Theorem predict_house_price_returns_iff w (p : float) (df' : DataFrame) :
  snd (predict_house_price transform predict bedrooms grade has_basement
         living_in_m2 renovated nice_view perfect_condition real_bathrooms
         has_lavatory single_floor month quartile_zone w) = Ok (p, df') <->
  exists df o o' x m m' rest,
    input_data bedrooms grade has_basement living_in_m2 renovated nice_view
      perfect_condition real_bathrooms has_lavatory single_floor month
      quartile_zone = Ok df /\
    scaler w = Some o /\
    transform o df = (o', df', Ok x) /\
    model w = Some m /\
    predict m x = (m', Ok (p :: rest)).
Proof.
  rewrite (predict_house_price_cases w _ row_ok). split.
  - destruct (scaler w) as [o|]; [|discriminate].
    destruct (transform o _) as [[o' df1] [x|e]] eqn:Ht; [|discriminate].
    destruct (model w) as [m|]; [|discriminate].
    destruct (predict m x) as [m' [[|y ys]|e]] eqn:Hp; try discriminate.
    cbn. intros H. inversion H; subst.
    eexists. exists o, o', x, m, m', ys.
    split; [apply row_ok|]. auto.
  - intros (df & o & o' & x & m & m' & rest & Hrow & Hs & Ht & Hm & Hp).
    rewrite row_ok in Hrow. inversion Hrow; subst df.
    rewrite Hs, Ht, Hm, Hp. reflexivity.
Qed.

(** X7. When model.predict returns an empty list, predict_house_price raises
    IndexError at the [0]. *)
Theorem predict_house_price_empty_prediction w df (o o' m m' : Obj) df' x :
  input_data bedrooms grade has_basement living_in_m2 renovated nice_view
    perfect_condition real_bathrooms has_lavatory single_floor month
    quartile_zone = Ok df ->
  scaler w = Some o ->
  transform o df = (o', df', Ok x) ->
  model w = Some m ->
  predict m x = (m', Ok []) ->
  snd (predict_house_price transform predict bedrooms grade has_basement
         living_in_m2 renovated nice_view perfect_condition real_bathrooms
         has_lavatory single_floor month quartile_zone w) = Raise IndexError.
Proof.
  intros Hrow Hs Ht Hm Hp.
  rewrite (predict_house_price_cases w df Hrow), Hs, Ht, Hm, Hp. reflexivity.
Qed.

(** X8. Whatever the artifacts do, predict_house_price leaves the files, the
    flag model_loaded and the page as they were. *)
Theorem predict_house_price_frame w :
  let w' := fst (predict_house_price transform predict bedrooms grade
                   has_basement living_in_m2 renovated nice_view
                   perfect_condition real_bathrooms has_lavatory single_floor
                   month quartile_zone w) in
  files w' = files w /\
  model_loaded w' = model_loaded w /\
  trace w' = trace w.
Proof.
  cbv zeta. rewrite (predict_house_price_cases w _ row_ok).
  destruct (scaler w) as [o|]; [|auto].
  destruct (transform o _) as [[o' df1] [x|e]]; [|auto].
  destruct (model w) as [m|]; [|auto].
  destruct (predict m x) as [m' r]. auto.
Qed.

(** X9. The outcome of predict_house_price depends on the state only through
    the two globals model and scaler: in two states that hold the same
    model and the same scaler, the same arguments give the same result and
    leave the same model and scaler. *)
Theorem predict_house_price_reads_globals w1 w2 :
  scaler w1 = scaler w2 ->
  model w1 = model w2 ->
  let r1 := predict_house_price transform predict bedrooms grade has_basement
              living_in_m2 renovated nice_view perfect_condition
              real_bathrooms has_lavatory single_floor month quartile_zone
              w1 in
  let r2 := predict_house_price transform predict bedrooms grade has_basement
              living_in_m2 renovated nice_view perfect_condition
              real_bathrooms has_lavatory single_floor month quartile_zone
              w2 in
  snd r1 = snd r2 /\
  scaler (fst r1) = scaler (fst r2) /\
  model (fst r1) = model (fst r2).
Proof.
  intros Hs Hm. cbv zeta.
  rewrite !(predict_house_price_cases _ _ row_ok), <- Hs, <- Hm.
  destruct (scaler w1) as [o|] eqn:Ho;
    [|cbn; repeat split; congruence].
  destruct (transform o _) as [[o' df1] [x|e]];
    [|cbn; repeat split; congruence].
  destruct (model w1) as [m|]; [|cbn; repeat split; congruence].
  destruct (predict m x) as [m' r]. cbn. repeat split; congruence.
Qed.

End Predictor_outcomes.

(** ** The page: every way a run can go *)

(** What a run draws before the loader is called, between the loader and the
    gate on [model_loaded], and from the gate to the button. *)
Definition drawn_before_load : list element :=
  [ PageConfig; Markdown "style" ].

Definition drawn_heading : list element :=
  [ Markdown "House Price Predictor";
    Markdown "Estimate the value of your property with AI-powered insights";
    Markdown "---" ].

Definition drawn_form : list element :=
  [ Header "Property Details"; Markdown "---";
    Widget "Bedrooms"; Widget "Bathrooms"; Widget "Living Area (m2)";
    Markdown "---"; Subheader "Quality";
    Widget "Property Grade"; Widget "Zone Quality";
    Markdown "---"; Subheader "Features";
    Widget "Basement"; Widget "Renovated"; Widget "Nice View";
    Widget "Perfect Condition"; Widget "Extra Lavatory";
    Widget "Single Floor";
    Markdown "---"; Widget "Month of Sale";
    Widget "Predict House Price"; Markdown "<br>" ].

(** A state with more events on its page. *)
Definition after {Obj : Type} (w : World Obj) (evs : list (event Obj))
  : World Obj :=
  {| files := files w; model := model w; scaler := scaler w;
     model_loaded := model_loaded w; trace := trace w ++ evs |}.

(** A state with the three globals set. *)
Definition with_globals {Obj : Type} (w : World Obj)
    (m s : option Obj) (loaded : bool) : World Obj :=
  {| files := files w; model := m; scaler := s; model_loaded := loaded;
     trace := trace w |}.

Section Page_outcomes.

Variable Obj : Type.
Variable transform : Obj -> DataFrame -> Obj * DataFrame * result ndarray.
Variable predict : Obj -> ndarray -> Obj * result (list float).
Implicit Type w : World Obj.

(** The whole of a run, by the outcome of the loader, the button and the
    outcome of the predictor. *)
Lemma script_cases (ui : Widgets) w :
  script transform predict ui w =
    match snd (load_model_and_scaler w) with
    | Raise e => (after w (map Render drawn_before_load), Raise e)
    | Ok (m, s, loaded) =>
        let w1 := after (with_globals w m s loaded)
                    (map Render (drawn_before_load ++ drawn_heading)) in
        if negb loaded
        then (after w1 [Render (ErrorBox not_found_message)],
              Raise StopException)
        else
          let w2 := after w1 (map Render drawn_form) in
          if ui_predict ui
          then
            match predict_house_price transform predict
                    (ui_bedrooms ui) (ui_grade ui) (ui_has_basement ui)
                    (ui_living_in_m2 ui) (ui_renovated ui) (ui_nice_view ui)
                    (ui_perfect_condition ui) (ui_real_bathrooms ui)
                    (ui_has_lavatory ui) (ui_single_floor ui) (ui_month ui)
                    (ui_quartile_zone ui)
                    (after w2 [Call_predict_house_price m s]) with
            | (w3, Ok (p, _)) =>
                (after w3 [Render (SuccessBox "Prediction Completed!");
                           Render (PriceCard p)], Ok tt)
            | (w3, Raise e) => (w3, Raise e)
            end
          else
            (after w2
               [Render (InfoBox
                  "Fill details on the left and click Predict House Price")],
             Ok tt)
    end.
Proof.
  unfold script, bind, render, set_globals, get_model_loaded, st_stop, raise,
    widget, ret, note_call.
  rewrite !load_model_and_scaler_cases. cbn [files snd].
  unfold after, with_globals, drawn_before_load, drawn_heading, drawn_form.
  destruct (files w "house_price_model.pkl") as [| | |om];
    [| | |destruct (files w "scaler.pkl") as [| | |os]];
    cbn -[predict_house_price]; rewrite <- ?app_assoc; cbn -[predict_house_price];
    try reflexivity.
  destruct (ui_predict ui); cbn -[predict_house_price];
    rewrite <- ?app_assoc; cbn -[predict_house_price]; [|reflexivity].
  match goal with |- context [predict_house_price ?t ?p ?a1 ?a2 ?a3 ?a4 ?a5
                                ?a6 ?a7 ?a8 ?a9 ?a10 ?a11 ?a12 ?W] =>
    destruct (predict_house_price t p a1 a2 a3 a4 a5 a6 a7 a8 a9 a10 a11
                a12 W) as [w3 [[price df]|e]]
  end; cbn; rewrite <- ?app_assoc; reflexivity.
Qed.

(** The events of a call of the predictor are those it found. *)
Lemma predict_house_price_after (bedrooms grade : Z) (has_basement : bool)
    (living_in_m2 : float) (renovated nice_view perfect_condition : bool)
    (real_bathrooms : Z) (has_lavatory single_floor : bool)
    (month quartile_zone : Z) w :
  trace (fst (predict_house_price transform predict bedrooms grade
                has_basement living_in_m2 renovated nice_view
                perfect_condition real_bathrooms has_lavatory single_floor
                month quartile_zone w)) = trace w /\
  files (fst (predict_house_price transform predict bedrooms grade
                has_basement living_in_m2 renovated nice_view
                perfect_condition real_bathrooms has_lavatory single_floor
                month quartile_zone w)) = files w.
Proof.
  rewrite (predict_house_price_cases Obj transform predict bedrooms grade
             has_basement living_in_m2 renovated nice_view perfect_condition
             real_bathrooms has_lavatory single_floor month quartile_zone
             w _ (input_data_total bedrooms grade has_basement living_in_m2
                    renovated nice_view perfect_condition real_bathrooms
                    has_lavatory single_floor month quartile_zone)).
  destruct (scaler w) as [o|]; [|auto].
  destruct (transform o _) as [[o' df1] [x|e]]; [|auto].
  destruct (model w) as [m|]; [|auto].
  destruct (predict m x) as [m' r]. auto.
Qed.

(** X10. When the loader raises (an artifact is there but unreadable), the
    run of the page ends with that exception right after the page
    configuration and the style sheet: the error box is not drawn, no
    widget is shown and the globals are not set. *)
Theorem script_loader_raises (ui : Widgets) w (e : exn) :
  snd (load_model_and_scaler w) = Raise e ->
  script transform predict ui w
  = (after w (map Render drawn_before_load), Raise e).
Proof.
  intros H. rewrite script_cases, H. reflexivity.
Qed.

(** X11. With both artifacts loaded and the button not clicked, the run
    completes: the globals hold the two objects, the form is drawn, the
    prompt to fill it comes last, and the predictor is not called. *)
Theorem script_idle (ui : Widgets) w (om os : Obj) :
  files w "house_price_model.pkl" = Pickle om ->
  files w "scaler.pkl" = Pickle os ->
  ui_predict ui = false ->
  script transform predict ui w
  = (after (with_globals w (Some om) (Some os) true)
       (map Render
          (drawn_before_load ++ drawn_heading ++ drawn_form ++
           [InfoBox "Fill details on the left and click Predict House Price"])),
     Ok tt).
Proof.
  intros Hm Hs Hc.
  rewrite script_cases, load_model_and_scaler_cases, Hm, Hs, Hc.
  cbn [snd negb]. cbv zeta.
  unfold after, with_globals. cbn. rewrite <- !app_assoc. reflexivity.
Qed.

(** X12. In any run of the page the predictor is called at most once: once,
    with the model and the scaler the loader returned, when the loader
    reported success and the button was clicked, and not at all
    otherwise. *)
Theorem script_calls (ui : Widgets) w :
  exists evs,
    trace (fst (script transform predict ui w)) = (trace w ++ evs)%list /\
    filter is_call evs =
      match snd (load_model_and_scaler w) with
      | Ok (m, s, true) =>
          if ui_predict ui then [Call_predict_house_price m s] else []
      | _ => []
      end.
Proof.
  rewrite script_cases.
  destruct (snd (load_model_and_scaler w)) as [[[m s] [|]]|e]; cbv zeta;
    cbn [negb].
  - destruct (ui_predict ui).
    + match goal with |- context [predict_house_price ?t ?p ?a1 ?a2 ?a3 ?a4
                                    ?a5 ?a6 ?a7 ?a8 ?a9 ?a10 ?a11 ?a12 ?W] =>
        destruct (predict_house_price_after a1 a2 a3 a4 a5 a6 a7 a8 a9 a10
                    a11 a12 W) as [Htr _];
        destruct (predict_house_price t p a1 a2 a3 a4 a5 a6 a7 a8 a9 a10 a11
                    a12 W) as [w3 [[price df]|e]]
      end; cbn in Htr |- *; rewrite Htr, <- ?app_assoc;
      eexists; split; reflexivity.
    + cbn. rewrite <- ?app_assoc. eexists; split; reflexivity.
  - cbn. rewrite <- ?app_assoc. eexists; split; reflexivity.
  - cbn. eexists; split; reflexivity.
Qed.

(** X13. With both artifacts loaded and the button clicked, the widgets feed
    the predictor in its parameter order, and when the scaler and the model
    answer, the run completes with the success box and then the price card
    showing the first predicted value; the globals hold the two objects as
    the calls left them. *)
Theorem script_shows_price (ui : Widgets) w (om om' os os' : Obj)
    df df' x p rest :
  files w "house_price_model.pkl" = Pickle om ->
  files w "scaler.pkl" = Pickle os ->
  ui_predict ui = true ->
  input_data (ui_bedrooms ui) (ui_grade ui) (ui_has_basement ui)
    (ui_living_in_m2 ui) (ui_renovated ui) (ui_nice_view ui)
    (ui_perfect_condition ui) (ui_real_bathrooms ui) (ui_has_lavatory ui)
    (ui_single_floor ui) (ui_month ui) (ui_quartile_zone ui) = Ok df ->
  transform os df = (os', df', Ok x) ->
  predict om x = (om', Ok (p :: rest)) ->
  script transform predict ui w
  = (after (with_globals w (Some om') (Some os') true)
       (map Render (drawn_before_load ++ drawn_heading ++ drawn_form) ++
        [Call_predict_house_price (Some om) (Some os);
         Render (SuccessBox "Prediction Completed!");
         Render (PriceCard p)]),
     Ok tt).
Proof.
  intros Hm Hs Hc Hrow Ht Hp.
  rewrite script_cases, load_model_and_scaler_cases, Hm, Hs, Hc.
  cbn [snd negb]. cbv zeta.
  erewrite predict_house_price_returns; [| exact Hrow | reflexivity
                                         | reflexivity | exact Ht | exact Hp].
  unfold after, with_globals. cbn.
  rewrite <- !app_assoc. reflexivity.
Qed.

(** X14. With both artifacts loaded and the button clicked, an exception of
    the predictor (a frame the scaler refuses, say) ends the run with that
    exception: the call is the last thing recorded, and neither the success
    box nor a price card is drawn. *)
Theorem script_prediction_fails (ui : Widgets) w (om os os' : Obj)
    df df' (e : exn) :
  files w "house_price_model.pkl" = Pickle om ->
  files w "scaler.pkl" = Pickle os ->
  ui_predict ui = true ->
  input_data (ui_bedrooms ui) (ui_grade ui) (ui_has_basement ui)
    (ui_living_in_m2 ui) (ui_renovated ui) (ui_nice_view ui)
    (ui_perfect_condition ui) (ui_real_bathrooms ui) (ui_has_lavatory ui)
    (ui_single_floor ui) (ui_month ui) (ui_quartile_zone ui) = Ok df ->
  transform os df = (os', df', Raise e) ->
  script transform predict ui w
  = (after (with_globals w (Some om) (Some os') true)
       (map Render (drawn_before_load ++ drawn_heading ++ drawn_form) ++
        [Call_predict_house_price (Some om) (Some os)]),
     Raise e).
Proof.
  intros Hm Hs Hc Hrow Ht.
  rewrite script_cases, load_model_and_scaler_cases, Hm, Hs, Hc.
  cbn [snd negb]. cbv zeta.
  rewrite (predict_house_price_cases Obj transform predict _ _ _ _ _ _ _ _ _
             _ _ _ _ df Hrow).
  cbn [scaler after with_globals]. rewrite Ht.
  unfold after, with_globals. cbn.
  rewrite <- !app_assoc. reflexivity.
Qed.


(** X16. The run draws the not-found error box exactly when the loader
    reported a failure. *)
Theorem script_error_box_iff (ui : Widgets) w :
  exists evs,
    trace (fst (script transform predict ui w)) = (trace w ++ evs)%list /\
    (In (Render (ErrorBox not_found_message)) evs <->
     exists m s, snd (load_model_and_scaler w) = Ok (m, s, false)).
Proof.
  rewrite script_cases.
  destruct (snd (load_model_and_scaler w)) as [[[m s] [|]]|e]; cbv zeta;
    cbn [negb].
  - destruct (ui_predict ui).
    + match goal with |- context [predict_house_price ?t ?p ?a1 ?a2 ?a3 ?a4
                                    ?a5 ?a6 ?a7 ?a8 ?a9 ?a10 ?a11 ?a12 ?W] =>
        destruct (predict_house_price_after a1 a2 a3 a4 a5 a6 a7 a8 a9 a10
                    a11 a12 W) as [Htr _];
        destruct (predict_house_price t p a1 a2 a3 a4 a5 a6 a7 a8 a9 a10 a11
                    a12 W) as [w3 [[price df]|e]]
      end; cbn in Htr |- *; rewrite Htr, <- ?app_assoc;
      eexists; (split; [reflexivity|]);
      (split; [ cbn; intros H;
                repeat (destruct H as [H|H]; [discriminate|]); contradiction
              | intros (m0 & s0 & H); discriminate ]).
    + cbn. rewrite <- ?app_assoc. eexists; (split; [reflexivity|]).
      split; [ cbn; intros H;
               repeat (destruct H as [H|H]; [discriminate|]); contradiction
             | intros (m0 & s0 & H); discriminate ].
  - cbn. rewrite <- ?app_assoc. eexists; (split; [reflexivity|]).
    split; [intros _; exists m, s; reflexivity|].
    intros _. cbn. auto 10.
  - cbn. eexists; (split; [reflexivity|]).
    split; [ cbn; intros H;
             repeat (destruct H as [H|H]; [discriminate|]); contradiction
           | intros (m0 & s0 & H); discriminate ].
Qed.

End Page_outcomes.

(** ** The derived features: what they depend on and where they lie *)

(** X17. The four derived columns depend on bedrooms, real_bathrooms, grade,
    living_in_m2 and perfect_condition only: the other five boxes, the month
    and the zone do not enter them. *)
Theorem derived_columns_independent
    (bedrooms grade : Z) (living_in_m2 : float) (perfect_condition : bool)
    (real_bathrooms : Z)
    (has_basement1 renovated1 nice_view1 has_lavatory1 single_floor1 : bool)
    (month1 quartile_zone1 : Z)
    (has_basement2 renovated2 nice_view2 has_lavatory2 single_floor2 : bool)
    (month2 quartile_zone2 : Z) :
  exists df1 df2,
    input_data bedrooms grade has_basement1 living_in_m2 renovated1
      nice_view1 perfect_condition real_bathrooms has_lavatory1
      single_floor1 month1 quartile_zone1 = Ok df1 /\
    input_data bedrooms grade has_basement2 living_in_m2 renovated2
      nice_view2 perfect_condition real_bathrooms has_lavatory2
      single_floor2 month2 quartile_zone2 = Ok df2 /\
    skipn 12 df1 = skipn 12 df2.
Proof.
  rewrite !input_data_total. do 2 eexists. repeat split.
Qed.

(** X18. Within the widgets' ranges the ratio lies between 0.25 and 1.5, the
    number of rooms between 2 and 6, and the quality index between 1 and
    10. *)
Theorem derived_features_bounds
    (bedrooms grade : Z) (has_basement : bool) (living_in_m2 : float)
    (renovated nice_view perfect_condition : bool) (real_bathrooms : Z)
    (has_lavatory single_floor : bool) (month quartile_zone : Z) :
  valid_inputs bedrooms grade living_in_m2 real_bathrooms month
    quartile_zone ->
  exists df r t q,
    input_data bedrooms grade has_basement living_in_m2 renovated nice_view
      perfect_condition real_bathrooms has_lavatory single_floor month
      quartile_zone = Ok df /\
    getitem df "bathroom_bedroom_ratio" = Ok (Float64 [r]) /\
    (PrimFloat.leb 0.25 r && PrimFloat.leb r 1.5)%bool = true /\
    getitem df "total_rooms" = Ok (Int64 [t]) /\ 2 <= t <= 6 /\
    getitem df "quality_index" = Ok (Int64 [q]) /\ 1 <= q <= 10.
Proof.
  intros Hv.
  pose proof (valid_bedrooms _ _ _ _ _ _ Hv) as Hb.
  pose proof (valid_real_bathrooms _ _ _ _ _ _ Hv) as Hr.
  pose proof (valid_grade _ _ _ _ _ _ Hv) as Hg.
  rewrite input_data_total. do 4 eexists.
  split; [reflexivity|]. split; [reflexivity|].
  split.
  { assert (Hb' : bedrooms = 1 \/ bedrooms = 2 \/ bedrooms = 3) by lia.
    assert (Hr' : real_bathrooms = 1 \/ real_bathrooms = 2
                  \/ real_bathrooms = 3) by lia.
    destruct Hb' as [->|[->| ->]]; destruct Hr' as [->|[->| ->]];
      vm_compute; reflexivity. }
  split; [reflexivity|].
  split.
  { rewrite wrap64_small; unfold in_int64, min_int64, max_int64; lia. }
  split; [reflexivity|].
  unfold int_of_bool.
  destruct perfect_condition;
    rewrite (wrap64_small (_ + 1)), wrap64_small;
    unfold in_int64, min_int64, max_int64; lia.
Qed.

(** X19. The derivation has no check on its denominator: for bedrooms = -1
    it is zero, and the ratio column then holds plus infinity (for 1 to 3
    bathrooms) instead of the call raising. *)
Theorem ratio_infinite_at_minus_one
    (grade : Z) (has_basement : bool) (living_in_m2 : float)
    (renovated nice_view perfect_condition : bool) (real_bathrooms : Z)
    (has_lavatory single_floor : bool) (month quartile_zone : Z) :
  In real_bathrooms real_bathrooms_options ->
  exists df,
    input_data (-1) grade has_basement living_in_m2 renovated nice_view
      perfect_condition real_bathrooms has_lavatory single_floor month
      quartile_zone = Ok df /\
    getitem df "bathroom_bedroom_ratio" = Ok (Float64 [PrimFloat.infinity]).
Proof.
  unfold real_bathrooms_options. simpl. intros Hr.
  rewrite input_data_total. eexists. split; [reflexivity|].
  cbn [getitem String.eqb Ascii.eqb Bool.eqb].
  destruct Hr as [<-|[<-|[<-|[]]]]; vm_compute; reflexivity.
Qed.

(** ** The labels of the month selectbox (lines 193-194)

    The options are [list(range(1, 13))] and each is shown as
    [datetime(2024, x, 1).strftime('%B')]. *)


Definition is_leap (year : Z) : bool :=
  ((year mod 4 =? 0)%Z &&
   (negb (year mod 100 =? 0)%Z || (year mod 400 =? 0)%Z))%bool.

Definition days_in_month (year month : Z) : Z :=
  if (month =? 2)%Z then (if is_leap year then 29 else 28)
  else if ((month =? 4)%Z || (month =? 6)%Z || (month =? 9)%Z ||
           (month =? 11)%Z)%bool
       then 30 else 31.

(** A date, as [datetime(year, month, day)] builds it (midnight). *)
Record datetime : Type := {
  dt_year : Z;
  dt_month : Z;
  dt_day : Z
}.

(** The constructor refuses a year outside 1..9999, a month outside 1..12
    and a day the month does not have. *)
Definition new_datetime (year month day : Z) : result datetime :=
  if negb ((1 <=? year)%Z && (year <=? 9999)%Z)%bool then Raise ValueError
  else if negb ((1 <=? month)%Z && (month <=? 12)%Z)%bool
       then Raise ValueError
  else if negb ((1 <=? day)%Z && (day <=? days_in_month year month)%Z)%bool
       then Raise ValueError
  else Ok {| dt_year := year; dt_month := month; dt_day := day |}.

(** The full month names of the default (C) locale, which the script does
    not change. *)
Definition month_names : list string :=
  [ "January"; "February"; "March"; "April"; "May"; "June"; "July";
    "August"; "September"; "October"; "November"; "December" ].

(** [d.strftime('%B')]. *)
Definition strftime_B (d : datetime) : string :=
  nth (Z.to_nat (dt_month d - 1)) month_names "".

(** [lambda x: datetime(2024, x, 1).strftime('%B')]. *)
Definition format_func (x : Z) : result string :=
  let? d := new_datetime 2024 x 1 in Ok (strftime_B d).



(** X21. Different months have different labels: the label tells the user
    which option it stands for. *)
Theorem format_func_injective (x y : Z) (label : string) :
  format_func x = Ok label ->
  format_func y = Ok label ->
  x = y.
Proof.
  intros Hx Hy.
  assert (Hr : forall z l, format_func z = Ok l -> 1 <= z <= 12).
  { intros z l H.
    unfold format_func, new_datetime in H.
    destruct (Z.leb_spec 1 z), (Z.leb_spec z 12); try lia;
      cbn in H; discriminate. }
  pose proof (Hr _ _ Hx) as Rx. pose proof (Hr _ _ Hy) as Ry.
  assert (Cx : x = 1 \/ x = 2 \/ x = 3 \/ x = 4 \/ x = 5 \/ x = 6 \/ x = 7 \/
               x = 8 \/ x = 9 \/ x = 10 \/ x = 11 \/ x = 12) by lia.
  assert (Cy : y = 1 \/ y = 2 \/ y = 3 \/ y = 4 \/ y = 5 \/ y = 6 \/ y = 7 \/
               y = 8 \/ y = 9 \/ y = 10 \/ y = 11 \/ y = 12) by lia.
  repeat (destruct Cx as [Cx|Cx]; [subst x|]); try subst x;
    repeat (destruct Cy as [Cy|Cy]; [subst y|]); try subst y;
    try reflexivity; vm_compute in Hx, Hy; congruence.
Qed.

(** ** The text of the price card (line 224)

    The card shows [$] followed by [f"{predicted_price:,.2f}"]. *)

From Stdlib Require Import Ascii.

Section Price_text.

Local Open Scope Z_scope.

(** The integer nearest to [n / d], a tie going to the even one (the
    rounding of Python's float formatting), for [0 <= n] and [0 < d]. *)
Definition round_half_even (n d : Z) : Z :=
  let q := n / d in
  let r := n mod d in
  if 2 * r <? d then q
  else if d <? 2 * r then q + 1
  else if Z.even q then q else q + 1.

(** The value [m * 2^e] in hundredths, rounded to an integer. *)
Definition cents (m e : Z) : Z :=
  if 0 <=? e then 100 * m * 2 ^ e
  else round_half_even (100 * m) (2 ^ (- e)).

(** The character of a decimal digit. *)
Definition digit (d : Z) : ascii := ascii_of_nat (48 + Z.to_nat d).

(** The decimal digits of a natural number, the last digit first. *)
Fixpoint digits_rev_fuel (fuel : nat) (n : Z) : list ascii :=
  match fuel with
  | O => []
  | S f =>
      digit (n mod 10)
        :: (if n <? 10 then [] else digits_rev_fuel f (n / 10))
  end.

Definition digits_rev (n : Z) : list ascii :=
  digits_rev_fuel (S (Z.to_nat (Z.log2 n))) n.

(** The [,] option: a comma after every third digit, counted from the
    right, where more digits follow. *)
Fixpoint group3_rev (ds : list ascii) : list ascii :=
  match ds with
  | a :: b :: c :: ((_ :: _) as rest) =>
      a :: b :: c :: ","%char :: group3_rev rest
  | _ => ds
  end.

(** [f"{x:,.2f}"] for a float: the sign, the integer part in groups of
    three, a point and two decimals; [nan] and [inf] are spelled out. *)
Definition format_comma_2f (x : float) : string :=
  match Prim2SF x with
  | S754_nan => "nan"
  | S754_infinity s => if s then "-inf" else "inf"
  | S754_zero s => if s then "-0.00" else "0.00"
  | S754_finite s m e =>
      let n := cents (Z.pos m) e in
      string_of_list_ascii
        ((if s then ["-"%char] else []) ++
         rev (group3_rev (digits_rev (n / 100))) ++
         ["."%char; digit (n mod 100 / 10); digit (n mod 10)])%list
  end.

(** Reading a price text back: the value of a digit, of a run of digits
    (last digit first), the digits of a comma-grouped run, and the sign and
    the hundredths of a text of the form [-d,ddd.dd]; any other text is
    refused. *)
Definition digit_value (c : ascii) : option Z :=
  let k := Z.of_nat (nat_of_ascii c) - 48 in
  if (0 <=? k) && (k <=? 9) then Some k else None.

Fixpoint read_digits_rev (ds : list ascii) : option Z :=
  match ds with
  | [] => Some 0
  | c :: rest =>
      match digit_value c, read_digits_rev rest with
      | Some d, Some r => Some (d + 10 * r)
      | _, _ => None
      end
  end.

Fixpoint ungroup3_rev (cs : list ascii) : option (list ascii) :=
  match cs with
  | a :: b :: c :: sep :: ((_ :: _) as rest) =>
      if Ascii.eqb sep ","%char
      then option_map (fun r => a :: b :: c :: r) (ungroup3_rev rest)
      else None
  | [_] | [_; _] | [_; _; _] => Some cs
  | _ => None
  end.

Definition parse_price (s : string) : option (bool * Z) :=
  let cs := list_ascii_of_string s in
  let '(neg, cs) :=
    match cs with
    | c :: r => if Ascii.eqb c "-"%char then (true, r) else (false, cs)
    | [] => (false, cs)
    end in
  match rev cs with
  | d2 :: d1 :: point :: int_rev =>
      if Ascii.eqb point "."%char
      then match ungroup3_rev int_rev with
           | Some ds =>
               match read_digits_rev (d2 :: d1 :: ds) with
               | Some n => Some (neg, n)
               | None => None
               end
           | None => None
           end
      else None
  | _ => None
  end.


Lemma round_half_even_accurate (n d : Z) :
  0 <= n -> 0 < d ->
  0 <= round_half_even n d /\ 2 * Z.abs (round_half_even n d * d - n) <= d.
Proof.
  intros Hn Hd. unfold round_half_even.
  pose proof (Z.div_mod n d ltac:(lia)) as E.
  pose proof (Z.mod_pos_bound n d Hd) as B.
  pose proof (Z.div_pos n d Hn Hd) as Q.
  destruct (Z.ltb_spec (2 * (n mod d)) d); [nia|].
  destruct (Z.ltb_spec d (2 * (n mod d))); [nia|].
  destruct (Z.even (n / d)); nia.
Qed.

Lemma digit_value_digit (d : Z) : 0 <= d <= 9 -> digit_value (digit d) = Some d.
Proof.
  intros H.
  assert (C : d = 0 \/ d = 1 \/ d = 2 \/ d = 3 \/ d = 4 \/ d = 5 \/ d = 6 \/
              d = 7 \/ d = 8 \/ d = 9) by lia.
  repeat (destruct C as [C|C]; [subst d; reflexivity|]). subst d. reflexivity.
Qed.

Lemma digit_not_minus (d : Z) : 0 <= d <= 9 -> Ascii.eqb (digit d) "-"%char = false.
Proof.
  intros H.
  assert (C : d = 0 \/ d = 1 \/ d = 2 \/ d = 3 \/ d = 4 \/ d = 5 \/ d = 6 \/
              d = 7 \/ d = 8 \/ d = 9) by lia.
  repeat (destruct C as [C|C]; [subst d; reflexivity|]). subst d. reflexivity.
Qed.

Lemma read_digits_rev_fuel (fuel : nat) : forall n,
  0 <= n < 2 ^ Z.of_nat fuel ->
  read_digits_rev (digits_rev_fuel fuel n) = Some n.
Proof.
  induction fuel as [|f IH]; intros n Hn.
  - simpl in *. assert (n = 0) by lia. subst. reflexivity.
  - rewrite Nat2Z.inj_succ, Z.pow_succ_r in Hn by lia.
    cbn [digits_rev_fuel read_digits_rev].
    pose proof (Z.mod_pos_bound n 10 ltac:(lia)) as B.
    rewrite digit_value_digit by lia.
    pose proof (Z.div_mod n 10 ltac:(lia)) as E.
    destruct (Z.ltb_spec n 10) as [Hs|Hl].
    + cbn. f_equal. rewrite Z.mod_small by lia. lia.
    + rewrite IH.
      * f_equal. lia.
      * split; [apply Z.div_pos; lia|].
        apply Z.div_lt_upper_bound; lia.
Qed.

Lemma read_digits_rev_digits (n : Z) :
  0 <= n -> read_digits_rev (digits_rev n) = Some n.
Proof.
  intros Hn. apply read_digits_rev_fuel.
  rewrite Nat2Z.inj_succ, Z2Nat.id by apply Z.log2_nonneg.
  destruct (Z.eq_dec n 0) as [->|Hz]; [cbn; lia|].
  split; [lia|]. apply Z.log2_spec. lia.
Qed.

Lemma group3_rev_cons (d : ascii) (rest : list ascii) :
  exists t, group3_rev (d :: rest) = d :: t.
Proof.
  destruct rest as [|b [|c [|e r]]]; eexists; reflexivity.
Qed.

Lemma ungroup3_rev_group3_rev_len (k : nat) : forall ds,
  (List.length ds <= k)%nat -> ds <> [] ->
  ungroup3_rev (group3_rev ds) = Some ds.
Proof.
  induction k as [|k IH]; intros ds Hk Hne.
  - destruct ds; [congruence | simpl in Hk; lia].
  - destruct ds as [|a [|b [|c [|d rest]]]]; try reflexivity; [congruence|].
    assert (IHd : ungroup3_rev (group3_rev (d :: rest)) = Some (d :: rest)).
    { apply IH; [simpl in *; lia | discriminate]. }
    change (group3_rev (a :: b :: c :: d :: rest))
      with (a :: b :: c :: ","%char :: group3_rev (d :: rest)).
    destruct (group3_rev_cons d rest) as [t Ht]. rewrite Ht in *.
    change (ungroup3_rev (a :: b :: c :: ","%char :: d :: t))
      with (if Ascii.eqb ","%char ","%char
            then option_map (fun r => a :: b :: c :: r)
                   (ungroup3_rev (d :: t))
            else None).
    rewrite IHd. reflexivity.
Qed.

Lemma ungroup3_rev_group3_rev (ds : list ascii) :
  ds <> [] -> ungroup3_rev (group3_rev ds) = Some ds.
Proof. apply (ungroup3_rev_group3_rev_len (List.length ds)). lia. Qed.

Lemma In_group3_rev_len (x : ascii) (k : nat) : forall ds,
  (List.length ds <= k)%nat ->
  In x (group3_rev ds) -> x = ","%char \/ In x ds.
Proof.
  induction k as [|k IH]; intros ds Hk Hin.
  - destruct ds; [destruct Hin | simpl in Hk; lia].
  - destruct ds as [|a [|b [|c [|d rest]]]]; try (right; exact Hin).
    assert (Hg : group3_rev (a :: b :: c :: d :: rest)
                 = a :: b :: c :: ","%char :: group3_rev (d :: rest))
      by reflexivity.
    rewrite Hg in Hin.
    destruct Hin as [<-|[<-|[<-|[<-|Hin]]]];
      try (right; simpl; tauto); [left; reflexivity|].
    apply IH in Hin; [|simpl in *; lia].
    destruct Hin as [->|Hin]; [left; reflexivity|].
    right. simpl in *. tauto.
Qed.

Lemma In_digits_rev_fuel (x : ascii) (fuel : nat) : forall n,
  0 <= n -> In x (digits_rev_fuel fuel n) ->
  exists d, 0 <= d <= 9 /\ x = digit d.
Proof.
  induction fuel as [|f IH]; intros n Hn Hin; [destruct Hin|].
  cbn [digits_rev_fuel] in Hin. destruct Hin as [<-|Hin].
  - exists (n mod 10). split; [|reflexivity].
    pose proof (Z.mod_pos_bound n 10 ltac:(lia)). lia.
  - destruct (n <? 10); [destruct Hin|].
    apply IH in Hin; [exact Hin|]. apply Z.div_pos; lia.
Qed.

(** X22. For a finite, non-zero price the text of the price card has the
    form of an optional minus sign, digits in comma-separated groups of
    three, a point and two decimals; read back, it gives the sign of the
    price and a number of hundredths that is within half a hundredth of the
    price's magnitude m * 2^e (exactly 100 * m * 2^e when e >= 0). *)
Theorem format_comma_2f_reads_back (x : float) (s : bool) (m : positive)
    (e : Z) :
  Prim2SF x = S754_finite s m e ->
  let n := cents (Z.pos m) e in
  parse_price (format_comma_2f x) = Some (s, n) /\
  (0 <= e -> n = 100 * Z.pos m * 2 ^ e) /\
  (e < 0 -> 2 * Z.abs (n * 2 ^ (- e) - 100 * Z.pos m) <= 2 ^ (- e)).
Proof.
  intros Hx n.
  assert (Hn : 0 <= n /\ (0 <= e -> n = 100 * Z.pos m * 2 ^ e) /\
               (e < 0 -> 2 * Z.abs (n * 2 ^ (- e) - 100 * Z.pos m)
                         <= 2 ^ (- e))).
  { unfold n, cents. destruct (Z.leb_spec 0 e) as [He|He].
    - split; [|split; [reflexivity|lia]].
      pose proof (Z.pow_nonneg 2 e ltac:(lia)). nia.
    - assert (Hp : 0 < 2 ^ (- e)) by (apply Z.pow_pos_nonneg; lia).
      destruct (round_half_even_accurate (100 * Z.pos m) (2 ^ (- e))
                  ltac:(lia) Hp) as [H0 H1].
      split; [exact H0|]. split; [lia|]. intros _. exact H1. }
  destruct Hn as (Hn0 & Hexact & Hnear).
  split; [|split; assumption].
  unfold format_comma_2f. rewrite Hx. fold n.
  unfold parse_price. rewrite list_ascii_of_string_of_list_ascii.
  set (ds := digits_rev (n / 100)).
  assert (Hq : 0 <= n / 100) by (apply Z.div_pos; lia).
  assert (Hds : ds <> []) by (unfold ds, digits_rev; discriminate).
  set (tail := ["."%char; digit (n mod 100 / 10); digit (n mod 10)]).
  assert (Hrev : rev (rev (group3_rev ds) ++ tail)%list
                 = digit (n mod 10) :: digit (n mod 100 / 10) :: "."%char
                   :: group3_rev ds).
  { rewrite rev_app_distr, rev_involutive. reflexivity. }
  assert (Hread : read_digits_rev
                    (digit (n mod 10) :: digit (n mod 100 / 10) :: ds)
                  = Some n).
  { cbn [read_digits_rev]. unfold ds.
    rewrite read_digits_rev_digits by exact Hq.
    pose proof (Z.mod_pos_bound n 10 ltac:(lia)).
    pose proof (Z.mod_pos_bound n 100 ltac:(lia)).
    assert (Hd1 : 0 <= n mod 100 / 10 <= 9).
    { split; [apply Z.div_pos; lia|].
      assert (n mod 100 / 10 < 10) by (apply Z.div_lt_upper_bound; lia).
      lia. }
    rewrite !digit_value_digit by lia.
    f_equal.
      pose proof (Z.div_mod n 100 ltac:(lia)).
      pose proof (Z.div_mod (n mod 100) 10 ltac:(lia)).
      assert (Hm : n mod 10 = (n mod 100) mod 10).
      { rewrite (Z.div_mod n 100) at 1 by lia.
        replace (100 * (n / 100) + n mod 100)
          with (n mod 100 + (10 * (n / 100)) * 10) by lia.
        apply Z_mod_plus_full. }
      lia. }
  assert (Hfinish :
            match rev (rev (group3_rev ds) ++ tail)%list with
            | d2 :: d1 :: point :: int_rev =>
                if Ascii.eqb point "."%char
                then match ungroup3_rev int_rev with
                     | Some ds0 =>
                         match read_digits_rev (d2 :: d1 :: ds0) with
                         | Some n0 => Some (s, n0)
                         | None => None
                         end
                     | None => None
                     end
                else None
            | _ => None
            end = Some (s, n)).
  { rewrite Hrev. replace (Ascii.eqb "."%char "."%char) with true by reflexivity.
    rewrite ungroup3_rev_group3_rev by exact Hds. rewrite Hread.
    reflexivity. }
  destruct s.
  - cbn [app]. replace (Ascii.eqb "-"%char "-"%char) with true by reflexivity.
    exact Hfinish.
  - cbn [app].
    destruct (rev (group3_rev ds) ++ tail)%list as [|c r] eqn:Hc.
    { destruct (rev (group3_rev ds)); discriminate. }
    assert (Hcm : Ascii.eqb c "-"%char = false).
    { assert (Hin : In c (rev (group3_rev ds) ++ tail)%list)
        by (rewrite Hc; left; reflexivity).
      apply in_app_or in Hin. destruct Hin as [Hin|Hin].
      - apply in_rev in Hin.
        apply (In_group3_rev_len c (List.length ds)) in Hin; [|lia].
        destruct Hin as [->|Hin]; [reflexivity|].
        apply In_digits_rev_fuel in Hin; [|exact Hq].
        destruct Hin as (d & Hd & ->). apply digit_not_minus. exact Hd.
      - pose proof (Z.mod_pos_bound n 10 ltac:(lia)).
        pose proof (Z.mod_pos_bound n 100 ltac:(lia)).
        assert (Hd1 : 0 <= n mod 100 / 10 <= 9).
        { split; [apply Z.div_pos; lia|].
          assert (n mod 100 / 10 < 10)
            by (apply Z.div_lt_upper_bound; lia).
          lia. }
        destruct Hin as [<-|[<-|[<-|[]]]]; [reflexivity| |];
          apply digit_not_minus; lia. }
    rewrite Hcm. exact Hfinish.
Qed.

End Price_text.

(** A price of zero is shown as 0.00, with the sign of the zero. *)
Lemma format_comma_2f_zero (x : float) (s : bool) :
  Prim2SF x = S754_zero s ->
  parse_price (format_comma_2f x) = Some (s, 0).
Proof.
  intros H. unfold format_comma_2f. rewrite H. destruct s; reflexivity.
Qed.

(** A tie goes to the even hundredth: 0.125 is shown as 0.12, and 0.375 as
    0.38. *)
Lemma format_comma_2f_ties :
  format_comma_2f 0.125 = "0.12" /\ format_comma_2f 0.375 = "0.38".
Proof. split; vm_compute; reflexivity. Qed.

(** ** The further properties on concrete runs *)

Module Runs.

(** A scaler fitted on the columns in another order. *)
Definition misfitted_scaler : Sample.estimator :=
  Sample.StandardScaler (rev feature_columns)
    (repeat 0%float 16) (repeat 1%float 16).

(** The model in place, with the misfitted scaler. *)
Definition misfitted_dir (path : string) : file Sample.estimator :=
  if String.eqb path "house_price_model.pkl" then Pickle Sample.the_model
  else if String.eqb path "scaler.pkl" then Pickle misfitted_scaler
  else Absent.

(** The state after loading from [misfitted_dir]. *)
Definition misfitted : World Sample.estimator :=
  {| files := misfitted_dir; model := Some Sample.the_model;
     scaler := Some misfitted_scaler; model_loaded := true; trace := [] |}.

(** A scaler that returns no row and a model that predicts for none. *)
Definition no_rows (o : unit) (df : DataFrame)
  : unit * DataFrame * result ndarray := (o, df, Ok []).

Definition no_prices (o : unit) (x : ndarray) : unit * result (list float) :=
  (o, Ok []).

Definition units : World unit :=
  {| files := fun _ => Pickle tt; model := Some tt; scaler := Some tt;
     model_loaded := true; trace := [] |}.

End Runs.

Lemma predict_house_price_without_scaler_witness :
  scaler (Sample.fresh Sample.installed) = None /\
  predict_house_price Sample.transform Sample.predict
    2 3 false 180 false false false 2 false false 6 2
    (Sample.fresh Sample.installed)
  = (Sample.fresh Sample.installed, Raise AttributeError).
Proof.
  split; [reflexivity|].
  apply (predict_house_price_without_scaler Sample.estimator
           Sample.transform Sample.predict
           2 3 false 180 false false false 2 false false 6 2
           (Sample.fresh Sample.installed) eq_refl).
Defined.

Lemma predict_house_price_scaler_failure_witness :
  let r := predict_house_price Sample.transform Sample.predict
             2 3 false 180 false false false 2 false false 6 2
             Runs.misfitted in
  snd r = Raise ValueError /\ model (fst r) = model Runs.misfitted.
Proof.
  apply (predict_house_price_scaler_failure Sample.estimator
           Sample.transform Sample.predict
           2 3 false 180 false false false 2 false false 6 2
           Runs.misfitted boundary_row Runs.misfitted_scaler ValueError);
    vm_compute; reflexivity.
Defined.

Lemma predict_house_price_empty_prediction_witness :
  snd (predict_house_price Runs.no_rows Runs.no_prices
         2 3 false 180 false false false 2 false false 6 2 Runs.units)
  = Raise IndexError.
Proof.
  apply (predict_house_price_empty_prediction unit Runs.no_rows
           Runs.no_prices
           2 3 false 180 false false false 2 false false 6 2
           Runs.units boundary_row tt tt tt tt boundary_row []);
    vm_compute; reflexivity.
Defined.

Lemma predict_house_price_reads_globals_witness :
  let r1 := predict_house_price Sample.transform Sample.predict
              2 3 false 180 false false false 2 false false 6 2
              Sample.loaded in
  let r2 := predict_house_price Sample.transform Sample.predict
              2 3 false 180 false false false 2 false false 6 2
              (after Sample.loaded [Render PageConfig]) in
  snd r1 = snd r2 /\
  scaler (fst r1) = scaler (fst r2) /\
  model (fst r1) = model (fst r2).
Proof.
  apply (predict_house_price_reads_globals Sample.estimator
           Sample.transform Sample.predict
           2 3 false 180 false false false 2 false false 6 2
           Sample.loaded (after Sample.loaded [Render PageConfig])
           eq_refl eq_refl).
Defined.

Lemma script_loader_raises_witness :
  snd (load_model_and_scaler (Sample.fresh Sample.model_locked))
    = Raise PermissionError /\
  script Sample.transform Sample.predict (Sample.defaults true)
    (Sample.fresh Sample.model_locked)
  = (after (Sample.fresh Sample.model_locked)
       (map Render drawn_before_load),
     Raise PermissionError).
Proof.
  split; [reflexivity|].
  apply (script_loader_raises Sample.estimator Sample.transform
           Sample.predict (Sample.defaults true)
           (Sample.fresh Sample.model_locked) PermissionError eq_refl).
Defined.

Lemma script_idle_witness :
  script Sample.transform Sample.predict (Sample.defaults false)
    (Sample.fresh Sample.installed)
  = (after (with_globals (Sample.fresh Sample.installed)
              (Some Sample.the_model) (Some Sample.the_scaler) true)
       (map Render
          (drawn_before_load ++ drawn_heading ++ drawn_form ++
           [InfoBox "Fill details on the left and click Predict House Price"])),
     Ok tt).
Proof.
  apply (script_idle Sample.estimator Sample.transform Sample.predict
           (Sample.defaults false) (Sample.fresh Sample.installed)
           Sample.the_model Sample.the_scaler eq_refl eq_refl eq_refl).
Defined.

Lemma script_shows_price_witness :
  script Sample.transform Sample.predict (Sample.defaults true)
    (Sample.fresh Sample.installed)
  = (after (with_globals (Sample.fresh Sample.installed)
              (Some Sample.the_model) (Some Sample.the_scaler) true)
       (map Render (drawn_before_load ++ drawn_heading ++ drawn_form) ++
        [Call_predict_house_price (Some Sample.the_model)
           (Some Sample.the_scaler);
         Render (SuccessBox "Prediction Completed!");
         Render (PriceCard 253066.66666666666%float)]),
     Ok tt).
Proof.
  eapply (script_shows_price Sample.estimator Sample.transform
            Sample.predict (Sample.defaults true)
            (Sample.fresh Sample.installed)
            Sample.the_model Sample.the_model Sample.the_scaler
            Sample.the_scaler _ _ _ 253066.66666666666%float []);
    vm_compute; reflexivity.
Defined.

Lemma script_prediction_fails_witness :
  script Sample.transform Sample.predict (Sample.defaults true)
    (Sample.fresh Runs.misfitted_dir)
  = (after (with_globals (Sample.fresh Runs.misfitted_dir)
              (Some Sample.the_model) (Some Runs.misfitted_scaler) true)
       (map Render (drawn_before_load ++ drawn_heading ++ drawn_form) ++
        [Call_predict_house_price (Some Sample.the_model)
           (Some Runs.misfitted_scaler)]),
     Raise ValueError).
Proof.
  eapply (script_prediction_fails Sample.estimator Sample.transform
            Sample.predict (Sample.defaults true)
            (Sample.fresh Runs.misfitted_dir)
            Sample.the_model Runs.misfitted_scaler Runs.misfitted_scaler
            _ _ ValueError);
    vm_compute; reflexivity.
Defined.

Lemma derived_features_bounds_witness :
  exists df r t q,
    input_data 2 3 false 180 false false false 2 false false 6 2 = Ok df /\
    getitem df "bathroom_bedroom_ratio" = Ok (Float64 [r]) /\
    (PrimFloat.leb 0.25 r && PrimFloat.leb r 1.5)%bool = true /\
    getitem df "total_rooms" = Ok (Int64 [t]) /\ 2 <= t <= 6 /\
    getitem df "quality_index" = Ok (Int64 [q]) /\ 1 <= q <= 10.
Proof.
  apply (derived_features_bounds 2 3 false 180 false false false 2
           false false 6 2 valid_inputs_boundary).
Defined.

Lemma ratio_infinite_at_minus_one_witness :
  exists df,
    input_data (-1) 3 false 180 false false false 2 false false 6 2 = Ok df /\
    getitem df "bathroom_bedroom_ratio" = Ok (Float64 [PrimFloat.infinity]).
Proof.
  apply (ratio_infinite_at_minus_one 3 false 180 false false false 2
           false false 6 2).
  unfold real_bathrooms_options. simpl. auto.
Defined.

Lemma format_func_injective_witness :
  format_func 6 = Ok "June" /\ 6 = 6.
Proof.
  split; [reflexivity|].
  apply (format_func_injective 6 6 "June"); reflexivity.
Defined.

Lemma format_comma_2f_reads_back_witness :
  format_comma_2f 258066.66666666666 = "258,066.67" /\
  parse_price (format_comma_2f 258066.66666666666) = Some (false, 25806667) /\
  2 * Z.abs (25806667 * 2 ^ 35 - 100 * 8867103148168533) <= 2 ^ 35.
Proof.
  split; [vm_compute; reflexivity|].
  destruct (format_comma_2f_reads_back 258066.66666666666 false
              8867103148168533 (-35) ltac:(vm_compute; reflexivity))
    as (Hp & _ & Hn).
  split; [exact Hp|]. apply Hn. lia.
Defined.
